(** * Market sentiment dashboard (app.py): tables, merge, windows, correlation, insights

    A shallow embedding of the analytical pipeline of [app.py]:
    [load_data], the common date range and the inner merge on [date],
    the date-range view [merged_filtered], the correlation window [corr_data],
    the four [Series.corr] coefficients and the generated insight sentences;
    also the sidebar date input, the Fear & Greed comparison chart, and the
    [Driver] class of [driver.py].

    Conventions of the model.
    - A pandas [Timestamp] is its number of nanoseconds since the epoch, [NaT]
      is [None]; int64 overflow of timestamps is not modelled.
    - A float that the script holds is [NaN] or a finite number ([Fin r]);
      comparisons with a literal and the formatting [:.2f] act on this value.
      The binary64 arithmetic of NumPy inside [Series.corr] (rounding,
      overflow, the order in which a reduction adds its terms) is a parameter
      of the model, [Corr.Arith]: what is proved holds whatever it computes.
      Signed zeros are not modelled.
    - A DataFrame is the list of its rows, in index order; the CSV files are
      assumed to carry the columns the script reads. *)

From Stdlib Require Import ZArith List String Ascii Bool Lia.
From Stdlib Require Import Reals Lra.
From Stdlib Require Import DecimalString.
Import ListNotations.

Open Scope string_scope.
Open Scope Z_scope.

(** ** Python floats and pandas timestamps *)

Inductive pyfloat : Type :=
| NaN : pyfloat
| Fin (r : R) : pyfloat.

(** [None] is [pd.NaT]. *)
Definition Timestamp : Type := option Z.

Module Ts.

(** Comparisons of timestamps: any comparison with [NaT] is [False]. *)
Definition ge (a b : Timestamp) : bool :=
  match a, b with Some x, Some y => x >=? y | _, _ => false end.
Definition le (a b : Timestamp) : bool :=
  match a, b with Some x, Some y => x <=? y | _, _ => false end.
Definition gt (a b : Timestamp) : bool :=
  match a, b with Some x, Some y => x >? y | _, _ => false end.
Definition lt (a b : Timestamp) : bool :=
  match a, b with Some x, Some y => x <? y | _, _ => false end.

(** Key equality of [pd.merge]: null keys match each other. *)
Definition key_eqb (a b : Timestamp) : bool :=
  match a, b with
  | Some x, Some y => x =? y
  | None, None => true
  | _, _ => false
  end.

(** [pd.Timedelta(days=n)] in nanoseconds. *)
Definition Timedelta_days (n : Z) : Z := n * 86400000000000.

(** [t - pd.Timedelta(...)]; [NaT - delta] is [NaT]. *)
Definition sub (t : Timestamp) (delta : Z) : Timestamp :=
  match t with Some x => Some (x - delta) | None => None end.

(** [.dt.date] / [.date()]: the calendar day, as a day number. *)
Definition to_date (t : Timestamp) : option Z :=
  match t with Some x => Some (x / Timedelta_days 1) | None => None end.

End Ts.

(** [Series.min()] and [Series.max()] of a datetime column: nulls are skipped,
    an empty or all-null column gives [NaT]. *)
Fixpoint series_min (col : list Timestamp) : Timestamp :=
  match col with
  | [] => None
  | None :: col' => series_min col'
  | Some x :: col' =>
      match series_min col' with
      | None => Some x
      | Some y => Some (Z.min x y)
      end
  end.

Fixpoint series_max (col : list Timestamp) : Timestamp :=
  match col with
  | [] => None
  | None :: col' => series_max col'
  | Some x :: col' =>
      match series_max col' with
      | None => Some x
      | Some y => Some (Z.max x y)
      end
  end.

(** Python's builtin [max(a, b)] and [min(a, b)]: the first argument is kept
    unless the second compares strictly greater (smaller). *)
Definition py_max (a b : Timestamp) : Timestamp := if Ts.gt b a then b else a.
Definition py_min (a b : Timestamp) : Timestamp := if Ts.lt b a then b else a.

(** ** The tables *)

(** A row of the crypto CSV: [date, fear_greed_index, btc_price]. *)
Record CryptoRow : Type := mkCrypto {
  c_date : Timestamp;
  c_fear_greed_index : pyfloat;
  c_btc_price : pyfloat
}.

(** A row of the stock CSV: [date, fear_greed_index, price]. *)
Record StockRow : Type := mkStock {
  s_date : Timestamp;
  s_fear_greed_index : pyfloat;
  s_price : pyfloat
}.

(** A row of [merged_df]; the clashing column [fear_greed_index] carries the
    suffixes [_crypto] and [_stock]. *)
Record MergedRow : Type := mkMerged {
  date : Timestamp;
  fear_greed_index_crypto : pyfloat;
  btc_price : pyfloat;
  fear_greed_index_stock : pyfloat;
  price : pyfloat
}.

Definition join_rows (c : CryptoRow) (s : StockRow) : MergedRow :=
  {| date := c_date c;
     fear_greed_index_crypto := c_fear_greed_index c;
     btc_price := c_btc_price c;
     fear_greed_index_stock := s_fear_greed_index s;
     price := s_price s |}.

(** [pd.merge(left, right, on='date', how='inner', suffixes=...)]: every pair
    of a left and a right row with equal keys, in the order of the left keys. *)
Definition pd_merge (left : list CryptoRow) (right : list StockRow)
  : list MergedRow :=
  flat_map
    (fun c => map (join_rows c)
                  (filter (fun s => Ts.key_eqb (c_date c) (s_date s)) right))
    left.

(** ** Common date range and merge (app.py, lines 98-112) *)

Section Overview.

Variable crypto_df : list CryptoRow.
Variable stock_df : list StockRow.

Definition min_date : Timestamp :=
  py_max (series_min (map c_date crypto_df)) (series_min (map s_date stock_df)).

Definition max_date : Timestamp :=
  py_min (series_max (map c_date crypto_df)) (series_max (map s_date stock_df)).

Definition crypto_filtered : list CryptoRow :=
  filter (fun r => Ts.ge (c_date r) min_date && Ts.le (c_date r) max_date)
         crypto_df.

Definition stock_filtered : list StockRow :=
  filter (fun r => Ts.ge (s_date r) min_date && Ts.le (s_date r) max_date)
         stock_df.

Definition merged_df : list MergedRow :=
  pd_merge crypto_filtered stock_filtered.

End Overview.

(** ** The two views of [merged_df] (app.py, lines 133-159) *)

(** The chart view. [date_range] is the value of the sidebar date input: a
    tuple of zero, one or two calendar days (day numbers). *)
Definition merged_filtered (merged : list MergedRow) (date_range : list Z)
  : list MergedRow :=
  match date_range with
  | [start_date; end_date] =>
      filter
        (fun r =>
           match Ts.to_date (date r) with
           | Some d => (d >=? start_date) && (d <=? end_date)
           | None => false
           end)
        merged
  | _ => merged
  end.

(** Rows not older than [days] days before the newest row. *)
Definition last_days (merged : list MergedRow) (days : Z) : list MergedRow :=
  filter
    (fun r =>
       Ts.ge (date r)
             (Ts.sub (series_max (map date merged)) (Ts.Timedelta_days days)))
    merged.

(** The correlation input, chosen by the select box. *)
Definition corr_data (merged : list MergedRow) (correlation_period : string)
  : list MergedRow :=
  if (correlation_period =? "Last 1 Year")%string then last_days merged 365
  else if (correlation_period =? "Last 6 Months")%string then last_days merged 180
  else if (correlation_period =? "Last 3 Months")%string then last_days merged 90
  else if (correlation_period =? "Last 1 Month")%string then last_days merged 30
  else merged.

(** ** [Series.corr] (pandas, method [pearson]) *)

Module Corr.

Local Open Scope R_scope.

(** [valid = notna(a) & notna(b); a = a[valid]; b = b[valid]]: the pairs in
    which both observations are present. *)
Fixpoint valid_pairs (a b : list pyfloat) : list (R * R) :=
  match a, b with
  | Fin x :: a', Fin y :: b' => (x, y) :: valid_pairs a' b'
  | _ :: a', _ :: b' => valid_pairs a' b'
  | _, _ => []
  end.

(** A binary64 value inside NumPy: [nan], an infinity or a finite number. *)
Inductive float64 : Type :=
| f_nan : float64
| f_inf (negative : bool) : float64
| f_fin (r : R) : float64.

(** The operations of NumPy on binary64 that [np.corrcoef] uses:
    [np.average] of a row, [x - avg], an entry of [dot(X, X.T)],
    [np.true_divide(1, fact)], [c *= ...], [sqrt] and [c /= ...]. How a result
    is rounded, when it overflows and in which order a reduction adds its
    terms is decided by the machine and its BLAS library, not by the script:
    the operations are parameters. The results that IEEE 754 fixes for a
    single observation are part of the interface: the average of one number
    is the number, [x - x] is zero, [0 * 0] is zero, [1 / 0] is [inf],
    [0 * inf] is [nan], and a [nan] divided by anything is a [nan]. *)
Record Arith : Type := mkArith {
  average : list R -> float64;
  subtract : R -> float64 -> float64;
  dot : list float64 -> list float64 -> float64;
  true_divide : R -> R -> float64;
  multiply : float64 -> float64 -> float64;
  np_sqrt : float64 -> float64;
  divide : float64 -> float64 -> float64;
  average_one : forall x, average [x] = f_fin x;
  subtract_self : forall x, subtract x (f_fin x) = f_fin 0;
  dot_zero : dot [f_fin 0] [f_fin 0] = f_fin 0;
  true_divide_zero : true_divide 1 0 = f_inf false;
  multiply_zero_inf : multiply (f_fin 0) (f_inf false) = f_nan;
  divide_nan : forall s, divide f_nan s = f_nan
}.

(** [np.clip(c, -1, 1)], that is [minimum(1, maximum(c, -1))]: a [nan] stays
    a [nan]. *)
Definition clip (c : float64) : pyfloat :=
  match c with
  | f_nan => NaN
  | f_inf true => Fin (-1)
  | f_inf false => Fin 1
  | f_fin r =>
      if Rlt_dec r (-1) then Fin (-1)
      else if Rlt_dec 1 r then Fin 1
      else Fin r
  end.

Section NumPy.

Variable np : Arith.

(** An entry of [np.cov] ([ddof = 1]) for two rows: [fact = N - ddof], set to
    [0.0] when it is not positive; [X -= avg]; [c = dot(X, X.T)];
    [c *= np.true_divide(1, fact)]. *)
Definition cov (xs ys : list R) : float64 :=
  let fact := INR (List.length xs) - 1 in
  let fact := if Rle_dec fact 0 then 0 else fact in
  let X := map (fun x => subtract np x (average np xs)) xs in
  let Y := map (fun y => subtract np y (average np ys)) ys in
  multiply np (dot np X Y) (true_divide np 1 fact).

(** [np.corrcoef(a, b)[0, 1]]: the covariance divided by the first and then by
    the second standard deviation, and clipped. *)
Definition np_corrcoef (ps : list (R * R)) : pyfloat :=
  let xs := map fst ps in
  let ys := map snd ps in
  let stddev_x := np_sqrt np (cov xs xs) in
  let stddev_y := np_sqrt np (cov ys ys) in
  clip (divide np (divide np (cov xs ys) stddev_x) stddev_y).

(** [Series.corr] and [nanops.nancorr] with the default [min_periods = 1]:
    [nan] when no pair is left. *)
Definition corr (a b : list pyfloat) : pyfloat :=
  let ps := valid_pairs a b in
  if (List.length ps <? 1)%nat then NaN else np_corrcoef ps.

End NumPy.

End Corr.

(** The four coefficients of app.py, lines 161-164. *)
Record CorrelationResult : Type := mkCorr {
  correlation_fg : pyfloat;
  correlation_price_fg_crypto : pyfloat;
  correlation_price_fg_stock : pyfloat;
  correlation_price : pyfloat
}.

Definition correlate (np : Corr.Arith) (corr_data : list MergedRow)
  : CorrelationResult :=
  {| correlation_fg :=
       Corr.corr np (map fear_greed_index_crypto corr_data)
                    (map fear_greed_index_stock corr_data);
     correlation_price_fg_crypto :=
       Corr.corr np (map btc_price corr_data)
                    (map fear_greed_index_crypto corr_data);
     correlation_price_fg_stock :=
       Corr.corr np (map price corr_data)
                    (map fear_greed_index_stock corr_data);
     correlation_price :=
       Corr.corr np (map btc_price corr_data) (map price corr_data) |}.

(** ** Float comparisons and formatting *)

(** [abs(x)]. *)
Definition py_abs (x : pyfloat) : pyfloat :=
  match x with
  | NaN => NaN
  | Fin r => Fin (Rabs r)
  end.

(** [x > y] for a float [x] and a literal [y]: [False] when [x] is [nan]. *)
Definition py_gt (x : pyfloat) (y : R) : bool :=
  match x with
  | NaN => false
  | Fin r => if Rgt_dec r y then true else false
  end.

Module Fmt.

(** Rounding to the nearest integer, ties to the even one. *)
Definition round_half_even (x : R) : Z :=
  let f := Int_part x in
  let d := (x - IZR f)%R in
  if Rlt_dec d (1 / 2) then f
  else if Rgt_dec d (1 / 2) then f + 1
  else if Z.even f then f else f + 1.

Definition digits (n : Z) : string :=
  NilZero.string_of_uint (N.to_uint (Z.to_N n)).

(** The format specification [:.2f]: [nan] for a NaN, else an optional
    minus sign, the integer part, a point and two decimals, of the value
    rounded to hundredths. *)
Definition fmt2f (x : pyfloat) : string :=
  match x with
  | NaN => "nan"
  | Fin r =>
      let n := round_half_even (Rabs r * 100) in
      (if Rlt_dec r 0 then "-" else "")
        ++ digits (n / 100) ++ "." ++ digits (n mod 100 / 10)
        ++ digits (n mod 10)
  end.

End Fmt.

(** ** Key insights (app.py, lines 191-205) *)

Definition insight_fg (correlation_fg : pyfloat) : string :=
  if py_gt (py_abs correlation_fg) (7 / 10) then
    "Strong " ++ (if py_gt correlation_fg 0 then "positive" else "negative")
      ++ " correlation (" ++ Fmt.fmt2f correlation_fg
      ++ ") between crypto and stock market sentiment, suggesting market sentiment tends to move "
      ++ (if py_gt correlation_fg 0 then "together" else "in opposite directions")
      ++ "."
  else if py_gt (py_abs correlation_fg) (3 / 10) then
    "Moderate " ++ (if py_gt correlation_fg 0 then "positive" else "negative")
      ++ " correlation (" ++ Fmt.fmt2f correlation_fg
      ++ ") between crypto and stock market sentiment."
  else
    "Weak correlation (" ++ Fmt.fmt2f correlation_fg
      ++ ") between crypto and stock market sentiment, suggesting these markets may be driven by different factors.".

Definition insight_price (correlation_price : pyfloat) : string :=
  if py_gt (py_abs correlation_price) (7 / 10) then
    "Strong " ++ (if py_gt correlation_price 0 then "positive" else "negative")
      ++ " correlation (" ++ Fmt.fmt2f correlation_price
      ++ ") between Bitcoin and S&P 500 prices, indicating "
      ++ (if py_gt correlation_price 0 then "potential market integration"
          else "a potential hedging relationship")
      ++ "."
  else if py_gt (py_abs correlation_price) (3 / 10) then
    "Moderate " ++ (if py_gt correlation_price 0 then "positive" else "negative")
      ++ " correlation (" ++ Fmt.fmt2f correlation_price
      ++ ") between Bitcoin and S&P 500 prices."
  else
    "Weak correlation (" ++ Fmt.fmt2f correlation_price
      ++ ") between Bitcoin and S&P 500 prices, suggesting Bitcoin may still offer diversification benefits.".

(** The list [insights] after the two [append]s. *)
Definition insights (c : CorrelationResult) : list string :=
  ([] ++ [insight_fg (correlation_fg c)] ++ [insight_price (correlation_price c)])%list.

(** ** Loading the data (app.py, lines 71-95) *)

(** What the script finds outside: the directory listings and the parsed CSV
    files. [listdir dir = None] when [dir] does not exist. Reading stands for
    [pd.read_csv] followed by [pd.to_datetime] of the [date] column. *)
Record World : Type := mkWorld {
  listdir : string -> option (list string);
  read_crypto_csv : string -> list CryptoRow;
  read_stock_csv : string -> list StockRow
}.

(** The exceptions that end a run: the one [os.listdir] raises on a missing
    directory, and the one [st.sidebar.date_input] raises on [NaT]. *)
Inductive exn : Type :=
| FileNotFoundError (path : string)
| ValueError.

(** What a run of the script shows. Static headings and styling are left
    out. *)
Inductive event : Type :=
| Error (msg : string)
| Metrics (fg price price_fg_crypto price_fg_stock : string)
| InsightCard (text : string)
| Chart (title : string) (data : list MergedRow).

(** [s.endswith(suffix)]. *)
Definition endswith (s suffix : string) : bool :=
  let n := String.length s in
  let m := String.length suffix in
  (m <=? n)%nat && (substring (n - m) m s =? suffix)%string.

(** [max(files) if files else None] on file names. *)
Fixpoint max_name (files : list string) : option string :=
  match files with
  | [] => None
  | f :: files' =>
      match max_name files' with
      | None => Some f
      | Some g => if String.ltb f g then Some g else Some f
      end
  end.

Definition crypto_dir : string := "crypto_fg_index".
Definition stock_dir : string := "stock_fg_index".

(** [os.path.join(dir, file)]. *)
Definition path_join (dir file : string) : string := dir ++ "/" ++ file.

Definition load_data (w : World)
  : list event * (exn + option (list CryptoRow) * option (list StockRow)) :=
  match listdir w crypto_dir with
  | None => ([], inl (FileNotFoundError crypto_dir))
  | Some names_c =>
      let crypto_files := filter (fun f => endswith f ".csv") names_c in
      let latest_crypto_file := max_name crypto_files in
      match listdir w stock_dir with
      | None => ([], inl (FileNotFoundError stock_dir))
      | Some names_s =>
          let stock_files := filter (fun f => endswith f ".csv") names_s in
          let latest_stock_file := max_name stock_files in
          match latest_crypto_file, latest_stock_file with
          | Some fc, Some fs =>
              ([], inr (Some (read_crypto_csv w (path_join crypto_dir fc)),
                        Some (read_stock_csv w (path_join stock_dir fs))))
          | _, _ => ([Error "Data files not found!"], inr (None, None))
          end
      end
  end.

(** ** The sidebar date input (app.py, lines 117-131) *)

(** [default_start]: Python's [max] of the first day of the merged table and
    of the day 365 days before its last timestamp. Days are day numbers,
    [None] is the [NaT] that [NaT.date()] returns. *)
Definition default_start (merged : list MergedRow) : option Z :=
  py_max (Ts.to_date (series_min (map date merged)))
         (Ts.to_date (Ts.sub (series_max (map date merged))
                             (Ts.Timedelta_days 365))).

(** The arguments of [st.sidebar.date_input]. *)
Record DateInput : Type := mkDateInput {
  value : list (option Z);
  min_value : option Z;
  max_value : option Z
}.

Definition date_input_args (merged : list MergedRow) : DateInput :=
  {| value := [default_start merged;
               Ts.to_date (series_max (map date merged))];
     min_value := Ts.to_date (series_min (map date merged));
     max_value := Ts.to_date (series_max (map date merged)) |}.

(** ** The page (app.py, lines 97-510) *)

(** [st.sidebar.date_input(...)]: Streamlit turns the default values and the
    bounds into dates, which raises [ValueError] on [NaT], that is when the
    merged table has no row. Otherwise the widget returns the range it holds:
    the default values until the user picks a range, and the tuple picked by
    the user afterwards. *)
Definition st_date_input (args : DateInput) (picked : option (list Z))
  : exn + list Z :=
  match value args, min_value args, max_value args with
  | [Some start_date; Some end_date], Some _, Some _ =>
      inr (match picked with
           | Some date_range => date_range
           | None => [start_date; end_date]
           end)
  | _, _, _ => inl ValueError
  end.

(** The analytical part of the page: what it shows, and the exception that
    ended it, if any. [picked] is the range the user picked in the date input,
    if any, and [correlation_period] the value of the select box. What Plotly does inside
    a chart call is not modelled: a chart is its title and the table it
    draws. *)
Definition page (np : Corr.Arith) (crypto_df : list CryptoRow)
  (stock_df : list StockRow) (picked : option (list Z))
  (correlation_period : string) : list event * option exn :=
  let merged := merged_df crypto_df stock_df in
  match st_date_input (date_input_args merged) picked with
  | inl e => ([], Some e)
  | inr date_range =>
      let view := merged_filtered merged date_range in
      let c := correlate np (corr_data merged correlation_period) in
      (([Metrics (Fmt.fmt2f (correlation_fg c))
                 (Fmt.fmt2f (correlation_price c))
                 (Fmt.fmt2f (correlation_price_fg_crypto c))
                 (Fmt.fmt2f (correlation_price_fg_stock c))]
        ++ map InsightCard (insights c)
        ++ [Chart "Crypto vs Stock Fear & Greed Indices" view;
            Chart ("Correlation between Stock and Crypto Sentiment (r = "
                     ++ Fmt.fmt2f (correlation_fg c) ++ ")") view;
            Chart "Bitcoin Price vs. Crypto Fear & Greed Index" view;
            Chart ("Correlation between Crypto Sentiment and Bitcoin Price (r = "
                     ++ Fmt.fmt2f (correlation_price_fg_crypto c) ++ ")") view;
            Chart "S&P 500 Price vs. Stock Fear & Greed Index" view;
            Chart ("Correlation between Stock Sentiment and S&P 500 Price (r = "
                     ++ Fmt.fmt2f (correlation_price_fg_stock c) ++ ")") view])%list,
       None)
  end.

(** One run of the script: the events shown, and the exception that ended
    the run, if any. *)
Definition app (np : Corr.Arith) (w : World) (picked : option (list Z))
  (correlation_period : string) : list event * option exn :=
  match load_data w with
  | (shown, inl e) => (shown, Some e)
  | (shown, inr (Some crypto_df, Some stock_df)) =>
      let rest := page np crypto_df stock_df picked correlation_period in
      ((shown ++ fst rest)%list, snd rest)
  | (shown, inr _) =>
      ((shown
        ++ [Error "Failed to load data. Please check if the data files exist."])%list,
       None)
  end.

(** ** The Fear & Greed comparison chart (app.py, lines 212-303) *)

Record Trace : Type := mkTrace {
  trace_name : string;
  trace_x : list Timestamp;
  trace_y : list pyfloat
}.

(** A line shape from [(x0, y0)] to [(x1, y1)]. *)
Record Shape : Type := mkShape {
  x0 : Timestamp;
  y0 : R;
  x1 : Timestamp;
  y1 : R;
  line_color : string
}.

Record Annotation : Type := mkAnnotation {
  ann_x : Timestamp;
  ann_y : R;
  ann_text : string;
  font_color : string
}.

Record Figure : Type := mkFigure {
  traces : list Trace;
  shapes : list Shape;
  annotations : list Annotation
}.

Definition fig (merged_filtered : list MergedRow) : Figure :=
  let dates := map date merged_filtered in
  {| traces :=
       [mkTrace "Crypto Fear & Greed" dates
                (map fear_greed_index_crypto merged_filtered);
        mkTrace "Stock Fear & Greed" dates
                (map fear_greed_index_stock merged_filtered)];
     shapes :=
       [mkShape (series_min dates) 25 (series_max dates) 25 "Red";
        mkShape (series_min dates) 50 (series_max dates) 50 "Gray";
        mkShape (series_min dates) 75 (series_max dates) 75 "Green"];
     annotations :=
       [mkAnnotation (series_min dates) (25 / 2) "Extreme Fear" "Red";
        mkAnnotation (series_min dates) (75 / 2) "Fear" "Red";
        mkAnnotation (series_min dates) (125 / 2) "Greed" "Green";
        mkAnnotation (series_min dates) (175 / 2) "Extreme Greed" "Green"] |}.

(** ** The browser driver (driver.py) *)

Module Selenium.

(** A Chrome session started by [webdriver.Chrome(options=...)]: the
    arguments it was started with, and whether it still runs. The sessions
    started so far are numbered in the order of their start. Starting a
    session is taken to succeed. *)
Record Session : Type := mkSession {
  arguments : list string;
  running : bool
}.

(** The attributes of a [Driver] object: [driver], [wait] and [actions]
    exist only once [setup_driver] has run. [wait] is the session it waits on
    and its timeout in seconds, [actions] the session it acts on. *)
Record Driver : Type := mkDriver {
  headless : bool;
  driver : option nat;
  wait : option (nat * Z);
  actions : option nat
}.

(** [Driver(headless)]. *)
Definition init (headless : bool) : Driver :=
  {| headless := headless; driver := None; wait := None; actions := None |}.

(** The arguments added to [chrome_options], in order. *)
Definition chrome_options (self : Driver) : list string :=
  ((if headless self then ["--headless"] else [])
   ++ ["--no-sandbox"; "--disable-dev-shm-usage"; "--window-size=1920,1080";
       "--user-agent=Mozilla/5.0 (Windows NT 10.0; Win64; x64) AppleWebKit/537.36 (KHTML, like Gecko) Chrome/91.0.4472.124 Safari/537.36"])%list.

Definition setup_driver (self : Driver) (sessions : list Session)
  : Driver * list Session :=
  let id := List.length sessions in
  ({| headless := headless self;
      driver := Some id;
      wait := Some (id, 10);
      actions := Some id |},
   (sessions ++ [mkSession (chrome_options self) true])%list).

(** Reading an attribute that was never set. *)
Inductive error : Type :=
| AttributeError (name : string).

(** [driver.quit()] on session [id]. *)
Fixpoint quit (id : nat) (sessions : list Session) : list Session :=
  match sessions, id with
  | [], _ => []
  | s :: rest, O => mkSession (arguments s) false :: rest
  | s :: rest, S id' => s :: quit id' rest
  end.

Definition quit_driver (self : Driver) (sessions : list Session)
  : error + list Session :=
  match driver self with
  | None => inl (AttributeError "driver")
  | Some id => inr (quit id sessions)
  end.

End Selenium.

(** * Vocabulary of the properties *)

(** ** Sample tables *)

(** Midnight of day [n]. *)
Definition day (n : Z) : Timestamp := Some (Ts.Timedelta_days n).

Definition crypto_row (n : Z) (fg btc : R) : CryptoRow :=
  mkCrypto (day n) (Fin fg) (Fin btc).

Definition stock_row (n : Z) (fg px : R) : StockRow :=
  mkStock (day n) (Fin fg) (Fin px).

(** Crypto quotes on days 1 to 3, stock quotes on days 2 to 4. *)
Definition crypto_123 : list CryptoRow :=
  [crypto_row 1 10 100; crypto_row 2 20 110; crypto_row 3 30 120].

Definition stock_234 : list StockRow :=
  [stock_row 2 50 4000; stock_row 3 40 4100; stock_row 4 30 4200].


(** ** Windows *)

(** The rule of the specification: [r] is dated [maxDate - days] or later,
    [maxDate] being the newest date of [merged]. *)
Definition not_older_than (merged : list MergedRow) (days : Z) (r : MergedRow) : Prop :=
  exists d mx,
    date r = Some d /\ series_max (map date merged) = Some mx
    /\ mx - days * 86400000000000 <= d.

(** Rows on days 10, 15 and 45: the one-month window keeps the row of day 15,
    dated exactly 30 days before the newest one, and drops the row of day
    10. *)
Definition merged_10_15_45 : list MergedRow :=
  [mkMerged (day 10) (Fin 20) (Fin 110) (Fin 50) (Fin 4000);
   mkMerged (day 15) (Fin 30) (Fin 120) (Fin 40) (Fin 4100);
   mkMerged (day 45) (Fin 40) (Fin 130) (Fin 30) (Fin 4200)].

(** ** Runs of the script *)


(** The tables handed to the charts of a run, in order. *)
Definition charted (shown : list event) : list (list MergedRow) :=
  flat_map (fun e => match e with Chart _ data => [data] | _ => [] end) shown.

(** The metrics and insight cards of a run, in order. *)
Definition figures (shown : list event) : list event :=
  filter (fun e => match e with Chart _ _ => false | _ => true end) shown.

Definition metrics_of (c : CorrelationResult) : event :=
  Metrics (Fmt.fmt2f (correlation_fg c)) (Fmt.fmt2f (correlation_price c))
          (Fmt.fmt2f (correlation_price_fg_crypto c))
          (Fmt.fmt2f (correlation_price_fg_stock c)).

(** The directory is missing, or lists no CSV file (in particular, is
    empty). *)
Definition no_data (w : World) (dir : string) : Prop :=
  match listdir w dir with
  | None => True
  | Some names => forall f, In f names -> endswith f ".csv" = false
  end.

(** The two ways a run ends for lack of data: [load_data] reports it and
    returns no table, or [os.listdir] raises on a missing directory. *)
Definition reported_not_found : list event * option exn :=
  ([Error "Data files not found!";
    Error "Failed to load data. Please check if the data files exist."],
   None).

Definition raised_not_found (dir : string) : list event * option exn :=
  ([], Some (FileNotFoundError dir)).



(** The days of a correlation period; "All Time" has none. *)
Definition period_days (correlation_period : string) : option Z :=
  if (correlation_period =? "Last 1 Year")%string then Some 365
  else if (correlation_period =? "Last 6 Months")%string then Some 180
  else if (correlation_period =? "Last 3 Months")%string then Some 90
  else if (correlation_period =? "Last 1 Month")%string then Some 30
  else None.

(** The row lies in the window of the period. *)
Definition in_window (merged : list MergedRow) (correlation_period : string)
  (r : MergedRow) : Prop :=
  match period_days correlation_period with
  | Some days => not_older_than merged days r
  | None => True
  end.

(** ** Words of an insight *)

(** [c in s]. *)
Fixpoint mem (c : ascii) (s : string) : bool :=
  match s with
  | EmptyString => false
  | String x s' => Ascii.eqb c x || mem c s'
  end.

(** [w in s]: the word [w] occurs in the text [s]. *)
Fixpoint contains (w s : string) : bool :=
  prefix w s
  || match s with
     | EmptyString => false
     | String _ s' => contains w s'
     end.

(** Every insight is a text before the formatted coefficient, the
    coefficient in parentheses, and a text after it. *)
Definition direction (x : pyfloat) : string :=
  if py_gt x 0 then "positive" else "negative".

Definition before_number (x : pyfloat) : string :=
  if py_gt (py_abs x) (7 / 10) then "Strong " ++ direction x ++ " correlation "
  else if py_gt (py_abs x) (3 / 10) then "Moderate " ++ direction x ++ " correlation "
  else "Weak correlation ".

Definition fg_after_number (x : pyfloat) : string :=
  if py_gt (py_abs x) (7 / 10) then
    " between crypto and stock market sentiment, suggesting market sentiment tends to move "
      ++ (if py_gt x 0 then "together" else "in opposite directions") ++ "."
  else if py_gt (py_abs x) (3 / 10) then
    " between crypto and stock market sentiment."
  else
    " between crypto and stock market sentiment, suggesting these markets may be driven by different factors.".

Definition price_after_number (x : pyfloat) : string :=
  if py_gt (py_abs x) (7 / 10) then
    " between Bitcoin and S&P 500 prices, indicating "
      ++ (if py_gt x 0 then "potential market integration"
          else "a potential hedging relationship") ++ "."
  else if py_gt (py_abs x) (3 / 10) then
    " between Bitcoin and S&P 500 prices."
  else
    " between Bitcoin and S&P 500 prices, suggesting Bitcoin may still offer diversification benefits.".

(** The words that tell a direction. *)
Definition direction_words : list string :=
  ["positive"; "negative"; "together"; "in opposite directions"].

(** The bucket word, by the thresholds on [|r|]. *)
Definition bucket_rule (r : R) (t : string) : Prop :=
  (prefix "Strong " t = true <-> Rabs r > 7 / 10)%R
  /\ (prefix "Moderate " t = true <-> 3 / 10 < Rabs r <= 7 / 10)%R
  /\ (prefix "Weak " t = true <-> Rabs r <= 3 / 10)%R.

(** The direction words: none in the weak bucket, and in the other two
    buckets the one that fits the sign of [r]. *)
Definition direction_rule (r : R) (t : string) : Prop :=
  ((Rabs r <= 3 / 10)%R ->
   forall w, In w direction_words -> contains w t = false)
  /\ ((Rabs r > 3 / 10)%R -> (r > 0)%R ->
      contains "positive" t = true /\ contains "negative" t = false)
  /\ ((Rabs r > 3 / 10)%R -> (r < 0)%R ->
      contains "negative" t = true /\ contains "positive" t = false).

(** ** Undefined coefficients *)


(** A single day: every coefficient is undefined. *)
Definition one_day : list MergedRow :=
  [mkMerged (day 2) (Fin 20) (Fin 110) (Fin 50) (Fin 4000)].

(** Two days, the stock sentiment of the second one missing: a single pair
    of sentiments, two pairs of prices. *)
Definition one_pair : list MergedRow :=
  [mkMerged (day 2) (Fin 20) (Fin 110) (Fin 50) (Fin 4000);
   mkMerged (day 3) (Fin 30) (Fin 120) NaN (Fin 4100)].

Definition weak_fg_nan : string :=
  "Weak correlation (nan) between crypto and stock market sentiment, suggesting these markets may be driven by different factors.".

Definition weak_price_nan : string :=
  "Weak correlation (nan) between Bitcoin and S&P 500 prices, suggesting Bitcoin may still offer diversification benefits.".

(** ** Further vocabulary: files, rows and views *)

(** [f] is a CSV file name. *)
Definition csv_name (f : string) : Prop := exists stem, f = stem ++ ".csv".

(** [f] is the newest CSV file of a listing: a CSV name of the listing that
    no other CSV name of the listing exceeds in the order of strings. *)
Definition latest_csv (names : list string) (f : string) : Prop :=
  In f names /\ csv_name f
  /\ forall g, In g names -> csv_name g -> String.leb g f = true.

(** The listing holds a CSV file. *)
Definition has_csv (w : World) (dir : string) : Prop :=
  exists names f, listdir w dir = Some names /\ In f names /\ csv_name f.

(** The crypto row carries a proper timestamp. *)
Definition dated (c : CryptoRow) : bool :=
  match c_date c with Some _ => true | None => false end.

(** [d] is a proper timestamp that the stock table holds. *)
Definition stock_has (stock : list StockRow) (d : Timestamp) : bool :=
  match d with
  | Some _ => existsb (Ts.key_eqb d) (map s_date stock)
  | None => false
  end.

(** Every timestamp of the table is a midnight. *)
Definition midnights (merged : list MergedRow) : Prop :=
  forall r t, In r merged -> date r = Some t -> t mod Ts.Timedelta_days 1 = 0.

(** The calendar day of the row lies between the two days. *)
Definition day_within (start_date end_date : Z) (r : MergedRow) : Prop :=
  exists t, date r = Some t
            /\ start_date <= t / Ts.Timedelta_days 1 <= end_date.

(** The row lies in the range returned by the date input: between the two
    days of a range of two days; a tuple of another length restricts
    nothing. *)
Definition in_date_range (date_range : list Z) (r : MergedRow) : Prop :=
  forall start_date end_date,
    date_range = [start_date; end_date] -> day_within start_date end_date r.

(** Two rows that are 365 days and eleven hours apart: the older one falls on
    the first calendar day of the default range, before the year window
    opens. *)
Definition merged_midday : list MergedRow :=
  [mkMerged (Some (35 * 86400000000000 + 3600000000000))
            (Fin 20) (Fin 110) (Fin 50) (Fin 4000);
   mkMerged (Some (400 * 86400000000000 + 43200000000000))
            (Fin 30) (Fin 120) (Fin 40) (Fin 4100)].

(** ** Further vocabulary: observations *)



(** ** A sample arithmetic *)

(** The exact sum, product and quotient on finite numbers, with the rules of
    IEEE 754 for a zero divisor, the infinities and [nan]; no rounding and no
    overflow. *)
Definition negative (r : R) : bool := if Rlt_dec r 0%R then true else false.

Definition exact_add (a b : Corr.float64) : Corr.float64 :=
  match a, b with
  | Corr.f_fin x, Corr.f_fin y => Corr.f_fin (x + y)%R
  | Corr.f_fin _, Corr.f_inf s => Corr.f_inf s
  | Corr.f_inf s, Corr.f_fin _ => Corr.f_inf s
  | Corr.f_inf s, Corr.f_inf t => if Bool.eqb s t then Corr.f_inf s else Corr.f_nan
  | _, _ => Corr.f_nan
  end.

Definition exact_mul (a b : Corr.float64) : Corr.float64 :=
  match a, b with
  | Corr.f_fin x, Corr.f_fin y => Corr.f_fin (x * y)%R
  | Corr.f_fin x, Corr.f_inf s =>
      if Req_dec_T x 0%R then Corr.f_nan else Corr.f_inf (xorb (negative x) s)
  | Corr.f_inf s, Corr.f_fin y =>
      if Req_dec_T y 0%R then Corr.f_nan else Corr.f_inf (xorb s (negative y))
  | Corr.f_inf s, Corr.f_inf t => Corr.f_inf (xorb s t)
  | _, _ => Corr.f_nan
  end.

Definition exact_div (a b : Corr.float64) : Corr.float64 :=
  match a, b with
  | Corr.f_fin x, Corr.f_fin y =>
      if Req_dec_T y 0%R then
        if Req_dec_T x 0%R then Corr.f_nan else Corr.f_inf (negative x)
      else Corr.f_fin (x / y)%R
  | Corr.f_fin _, Corr.f_inf _ => Corr.f_fin 0%R
  | Corr.f_inf s, Corr.f_fin y => Corr.f_inf (xorb s (negative y))
  | _, _ => Corr.f_nan
  end.

Definition exact_sqrt (a : Corr.float64) : Corr.float64 :=
  match a with
  | Corr.f_fin x => if Rlt_dec x 0%R then Corr.f_nan else Corr.f_fin (sqrt x)
  | Corr.f_inf false => Corr.f_inf false
  | _ => Corr.f_nan
  end.

Definition exact_dot (X Y : list Corr.float64) : Corr.float64 :=
  fold_right exact_add (Corr.f_fin 0%R)
             (map (fun p => exact_mul (fst p) (snd p)) (combine X Y)).

(** An instance of the interface of NumPy's arithmetic: the properties hold
    for every instance, and are applied to this one on the sample tables. *)
Definition no_rounding : Corr.Arith.
Proof.
  refine {| Corr.average := fun xs =>
              Corr.f_fin (fold_right Rplus 0 xs / INR (List.length xs))%R;
            Corr.subtract := fun x avg => exact_add (Corr.f_fin x)
                                            (exact_mul (Corr.f_fin (-1)%R) avg);
            Corr.dot := exact_dot;
            Corr.true_divide := fun a b => exact_div (Corr.f_fin a) (Corr.f_fin b);
            Corr.multiply := exact_mul;
            Corr.np_sqrt := exact_sqrt;
            Corr.divide := exact_div |}.
  - intros x. simpl. f_equal. field.
  - intros x. simpl. f_equal. ring.
  - unfold exact_dot. simpl. f_equal. ring.
  - simpl. destruct (Req_dec_T 0%R 0%R) as [_|N]; [|now destruct N].
    destruct (Req_dec_T 1%R 0%R) as [E|_]; [lra|].
    unfold negative. destruct (Rlt_dec 1%R 0%R) as [L|_]; [lra|reflexivity].
  - simpl. destruct (Req_dec_T 0%R 0%R) as [_|N]; [reflexivity|now destruct N].
  - intros s. reflexivity.
Defined.

(** * Properties *)

(** ** Column minimum and maximum *)

Lemma series_min_spec (col : list Timestamp) (m : Z) :
  series_min col = Some m ->
  In (Some m) col /\ forall x, In (Some x) col -> m <= x.
Proof.
  revert m; induction col as [|[a|] col IH]; simpl; intros m H.
  - discriminate.
  - destruct (series_min col) as [y|] eqn:E.
    + destruct (IH y eq_refl) as [Hin Hle].
      injection H as <-. split.
      * destruct (Z.min_spec a y) as [[_ ->]|[_ ->]]; auto.
      * intros x [Hx|Hx]; [injection Hx as <-; lia|].
        specialize (Hle x Hx); lia.
    + injection H as <-. split; [auto|].
      intros x [Hx|Hx]; [injection Hx as <-; lia|].
      exfalso. clear IH. induction col as [|[b|] col IHc]; simpl in *.
      * contradiction.
      * destruct (series_min col); discriminate.
      * destruct Hx as [Hx|Hx]; [discriminate|auto].
  - destruct (IH m H) as [Hin Hle]. split; [auto|].
    intros x [Hx|Hx]; [discriminate|auto].
Qed.

Lemma series_max_spec (col : list Timestamp) (m : Z) :
  series_max col = Some m ->
  In (Some m) col /\ forall x, In (Some x) col -> x <= m.
Proof.
  revert m; induction col as [|[a|] col IH]; simpl; intros m H.
  - discriminate.
  - destruct (series_max col) as [y|] eqn:E.
    + destruct (IH y eq_refl) as [Hin Hle].
      injection H as <-. split.
      * destruct (Z.max_spec a y) as [[_ ->]|[_ ->]]; auto.
      * intros x [Hx|Hx]; [injection Hx as <-; lia|].
        specialize (Hle x Hx); lia.
    + injection H as <-. split; [auto|].
      intros x [Hx|Hx]; [injection Hx as <-; lia|].
      exfalso. clear IH. induction col as [|[b|] col IHc]; simpl in *.
      * contradiction.
      * destruct (series_max col); discriminate.
      * destruct Hx as [Hx|Hx]; [discriminate|auto].
  - destruct (IH m H) as [Hin Hle]. split; [auto|].
    intros x [Hx|Hx]; [discriminate|auto].
Qed.

Lemma series_min_some (col : list Timestamp) (x : Z) :
  In (Some x) col -> exists m, series_min col = Some m.
Proof.
  induction col as [|[a|] col IH]; simpl; intros H.
  - contradiction.
  - destruct (series_min col); eauto.
  - destruct H as [H|H]; [discriminate|auto].
Qed.

Lemma series_max_some (col : list Timestamp) (x : Z) :
  In (Some x) col -> exists m, series_max col = Some m.
Proof.
  induction col as [|[a|] col IH]; simpl; intros H.
  - contradiction.
  - destruct (series_max col); eauto.
  - destruct H as [H|H]; [discriminate|auto].
Qed.

(** On two proper timestamps the builtins are the usual maximum and minimum. *)
Lemma py_max_some (a b : Z) : py_max (Some a) (Some b) = Some (Z.max a b).
Proof.
  unfold py_max, Ts.gt. destruct (Z.gtb_spec b a); f_equal; lia.
Qed.

Lemma py_min_some (a b : Z) : py_min (Some a) (Some b) = Some (Z.min a b).
Proof.
  unfold py_min, Ts.lt. destruct (Z.ltb_spec b a); f_equal; lia.
Qed.

Lemma ts_ge_iff (a b : Timestamp) :
  Ts.ge a b = true <-> exists x y, a = Some x /\ b = Some y /\ y <= x.
Proof.
  destruct a as [x|], b as [y|]; simpl; split; intros H;
    try discriminate; try (destruct H as (? & ? & ? & ? & _); discriminate).
  - exists x, y. repeat split. lia.
  - destruct H as (x' & y' & Hx & Hy & Hle).
    injection Hx as ->. injection Hy as ->. lia.
Qed.

Lemma ts_le_iff (a b : Timestamp) :
  Ts.le a b = true <-> exists x y, a = Some x /\ b = Some y /\ x <= y.
Proof.
  destruct a as [x|], b as [y|]; simpl; split; intros H;
    try discriminate; try (destruct H as (? & ? & ? & ? & _); discriminate).
  - exists x, y. repeat split. lia.
  - destruct H as (x' & y' & Hx & Hy & Hle).
    injection Hx as ->. injection Hy as ->. lia.
Qed.

(** ** The merge *)

Lemma in_pd_merge (left : list CryptoRow) (right : list StockRow) (m : MergedRow) :
  In m (pd_merge left right) <->
  exists c s, In c left /\ In s right
              /\ Ts.key_eqb (c_date c) (s_date s) = true /\ m = join_rows c s.
Proof.
  unfold pd_merge. rewrite in_flat_map. split.
  - intros (c & Hc & Hm). apply in_map_iff in Hm as (s & <- & Hs).
    apply filter_In in Hs as [Hs Hk]. exists c, s. auto.
  - intros (c & s & Hc & Hs & Hk & ->). exists c. split; [assumption|].
    apply in_map. apply filter_In. auto.
Qed.

(** A row that passed the range filter carries a proper timestamp. *)
Lemma in_range_some (t lo hi : Timestamp) :
  Ts.ge t lo && Ts.le t hi = true ->
  exists d l h, t = Some d /\ lo = Some l /\ hi = Some h /\ l <= d <= h.
Proof.
  intros H. apply andb_true_iff in H as [H1 H2].
  apply ts_ge_iff in H1 as (x & l & -> & -> & Hl).
  apply ts_le_iff in H2 as (x' & h & Hx & -> & Hh).
  injection Hx as <-. exists x, l, h. repeat split; lia.
Qed.

(** A date held by both tables lies in the common range. *)
Lemma common_date_in_range (crypto : list CryptoRow) (stock : list StockRow) (d : Z) :
  In (Some d) (map c_date crypto) -> In (Some d) (map s_date stock) ->
  Ts.ge (Some d) (min_date crypto stock)
  && Ts.le (Some d) (max_date crypto stock) = true.
Proof.
  intros Hc Hs. unfold min_date, max_date.
  destruct (series_min_some _ _ Hc) as [cmin Ecmin].
  destruct (series_min_some _ _ Hs) as [smin Esmin].
  destruct (series_max_some _ _ Hc) as [cmax Ecmax].
  destruct (series_max_some _ _ Hs) as [smax Esmax].
  rewrite Ecmin, Esmin, Ecmax, Esmax, py_max_some, py_min_some.
  apply series_min_spec in Ecmin as [_ H1]. apply series_min_spec in Esmin as [_ H2].
  apply series_max_spec in Ecmax as [_ H3]. apply series_max_spec in Esmax as [_ H4].
  specialize (H1 d Hc). specialize (H2 d Hs).
  specialize (H3 d Hc). specialize (H4 d Hs).
  simpl. apply andb_true_iff. split; lia.
Qed.

Lemma in_merged_df (crypto : list CryptoRow) (stock : list StockRow) (m : MergedRow) :
  In m (merged_df crypto stock) <->
  exists c s d, In c crypto /\ In s stock
                /\ c_date c = Some d /\ s_date s = Some d /\ m = join_rows c s.
Proof.
  unfold merged_df, crypto_filtered, stock_filtered. rewrite in_pd_merge. split.
  - intros (c & s & Hc & Hs & Hk & ->).
    apply filter_In in Hc as [Hc Rc]. apply filter_In in Hs as [Hs Rs].
    apply in_range_some in Rc as (d & _ & _ & Ed & _).
    apply in_range_some in Rs as (d' & _ & _ & Ed' & _).
    rewrite Ed, Ed' in Hk. simpl in Hk. apply Z.eqb_eq in Hk as <-.
    exists c, s, d. auto.
  - intros (c & s & d & Hc & Hs & Ec & Es & ->).
    assert (R : Ts.ge (Some d) (min_date crypto stock)
                && Ts.le (Some d) (max_date crypto stock) = true).
    { apply common_date_in_range.
      - rewrite <- Ec. now apply in_map.
      - rewrite <- Es. now apply in_map. }
    exists c, s. repeat split.
    + apply filter_In. rewrite Ec. auto.
    + apply filter_In. rewrite Es. auto.
    + rewrite Ec, Es. simpl. apply Z.eqb_refl.
Qed.

(** The merge of the sample tables keeps the two common days. *)
Example merged_123_234 :
  merged_df crypto_123 stock_234 =
  [mkMerged (day 2) (Fin 20) (Fin 110) (Fin 50) (Fin 4000);
   mkMerged (day 3) (Fin 30) (Fin 120) (Fin 40) (Fin 4100)].
Proof. reflexivity. Qed.

(** ** C4: the merged table is the inner join on equal dates *)

(** C4. The merged table is the inner join of the two tables, each filtered to
    [[min_date, max_date]], on exact equality of the date: its rows are
    exactly the pairs of a crypto row and a stock row with the same date; so
    the date of a merged row occurs in both tables and lies in the common
    range, and a date that one of the tables lacks occurs in no merged row. *)
Theorem merged_df_inner_join_on_date (crypto : list CryptoRow) (stock : list StockRow) :
  merged_df crypto stock
  = pd_merge (crypto_filtered crypto stock) (stock_filtered crypto stock)
  /\ (forall m, In m (merged_df crypto stock) <->
        exists c s d, In c crypto /\ In s stock
                      /\ c_date c = Some d /\ s_date s = Some d
                      /\ m = join_rows c s)
  /\ (forall m, In m (merged_df crypto stock) ->
        In (date m) (map c_date crypto) /\ In (date m) (map s_date stock)
        /\ Ts.ge (date m) (min_date crypto stock) = true
        /\ Ts.le (date m) (max_date crypto stock) = true)
  /\ (forall d, ~ In d (map c_date crypto) \/ ~ In d (map s_date stock) ->
        ~ In d (map date (merged_df crypto stock))).
Proof.
  assert (Dates : forall m, In m (merged_df crypto stock) ->
            In (date m) (map c_date crypto) /\ In (date m) (map s_date stock)).
  { intros m Hm. apply in_merged_df in Hm as (c & s & d & Hc & Hs & Ec & Es & ->).
    simpl. split.
    - now apply in_map.
    - rewrite Ec, <- Es. now apply in_map. }
  split; [reflexivity|]. split; [apply in_merged_df|]. split.
  - intros m Hm. destruct (Dates m Hm) as [H1 H2]. split; [|split]; [assumption..|].
    apply andb_true_iff.
    apply in_merged_df in Hm as (c & s & d & Hc & Hs & Ec & Es & ->). simpl.
    rewrite Ec. apply common_date_in_range.
    + rewrite <- Ec. now apply in_map.
    + rewrite <- Es. now apply in_map.
  - intros d Hd Hin. apply in_map_iff in Hin as (m & <- & Hm).
    destruct (Dates m Hm). tauto.
Qed.

(** Day 1 is quoted for crypto only: it is absent from the merged table. *)
Lemma merged_df_inner_join_on_date_witness :
  ~ In (day 1) (map date (merged_df crypto_123 stock_234)).
Proof.
  apply (merged_df_inner_join_on_date crypto_123 stock_234).
  right. simpl. intros [H|[H|[H|[]]]]; discriminate H.
Defined.

(** ** C5, C9: the correlation windows *)

Lemma in_last_days (merged : list MergedRow) (days : Z) (r : MergedRow) :
  In r (last_days merged days) <-> In r merged /\ not_older_than merged days r.
Proof.
  unfold last_days, not_older_than. rewrite filter_In, ts_ge_iff.
  unfold Ts.sub, Ts.Timedelta_days.
  split; intros [Hin H]; (split; [assumption|]).
  - destruct H as (d & y & Hd & Hy & Hle).
    destruct (series_max (map date merged)) as [mx|]; [|discriminate].
    injection Hy as <-. exists d, mx. auto.
  - destruct H as (d & mx & Hd & -> & Hle). exists d, (mx - days * 86400000000000). auto.
Qed.

Lemma last_days_boundary (merged : list MergedRow) (days : Z) (r : MergedRow) :
  In r merged ->
  date r <> None ->
  date r = Ts.sub (series_max (map date merged)) (Ts.Timedelta_days days) ->
  In r (last_days merged days).
Proof.
  intros Hin Hsome Hd. apply in_last_days. split; [assumption|].
  unfold not_older_than. destruct (series_max (map date merged)) as [mx|]; simpl in Hd.
  - exists (mx - Ts.Timedelta_days days), mx. unfold Ts.Timedelta_days. repeat split; [assumption|lia].
  - contradiction.
Qed.

(** C5. The five window names select: no filter for "All Time"; for "Last 1
    Year", "Last 6 Months", "Last 3 Months" and "Last 1 Month" exactly the
    rows of the merged table dated [maxDate - N days] or later, for N = 365,
    180, 90 and 30, where [maxDate] is the newest date of the merged table;
    the rows keep their order, and a row dated exactly [maxDate - N days] is
    kept. *)
Theorem corr_data_windows (merged : list MergedRow) :
  corr_data merged "All Time" = merged
  /\ (forall name days,
        In (name, days) [("Last 1 Year", 365); ("Last 6 Months", 180);
                         ("Last 3 Months", 90); ("Last 1 Month", 30)] ->
        corr_data merged name = last_days merged days
        /\ (exists keep, corr_data merged name = filter keep merged)
        /\ (forall r, In r (corr_data merged name) <->
                      In r merged /\ not_older_than merged days r)
        /\ (forall r, In r merged -> date r <> None ->
              date r = Ts.sub (series_max (map date merged)) (Ts.Timedelta_days days) ->
              In r (corr_data merged name))).
Proof.
  split; [reflexivity|].
  intros name days Hin.
  assert (E : corr_data merged name = last_days merged days).
  { simpl in Hin.
    destruct Hin as [H|[H|[H|[H|[]]]]]; injection H as <- <-; reflexivity. }
  rewrite E. split; [reflexivity|]. split; [|split].
  - eexists. reflexivity.
  - apply in_last_days.
  - apply last_days_boundary.
Qed.

Lemma corr_data_windows_witness :
  In (mkMerged (day 15) (Fin 30) (Fin 120) (Fin 40) (Fin 4100))
     (corr_data merged_10_15_45 "Last 1 Month")
  /\ corr_data merged_10_15_45 "Last 1 Month" = tl merged_10_15_45.
Proof.
  split; [|reflexivity].
  apply (proj2 (corr_data_windows merged_10_15_45) "Last 1 Month" 30).
  - simpl. auto 6.
  - simpl. auto.
  - discriminate.
  - reflexivity.
Defined.

(** C9. With the window "All Time" the correlation input is the merged table
    itself: the same rows, in the same order, none dropped and none added. *)
Theorem corr_data_all_time (merged : list MergedRow) :
  corr_data merged "All Time" = merged.
Proof. reflexivity. Qed.

(** ** The date input and the page *)

Lemma Timedelta_day_pos : 0 < Ts.Timedelta_days 1.
Proof. reflexivity. Qed.

Lemma to_date_sub_days (t n : Z) :
  Ts.to_date (Ts.sub (Some t) (Ts.Timedelta_days n))
  = Some (t / Ts.Timedelta_days 1 - n).
Proof.
  simpl. f_equal. unfold Ts.Timedelta_days.
  replace (t - n * 86400000000000) with (t + (- n) * (1 * 86400000000000)) by lia.
  rewrite Z.div_add by lia. lia.
Qed.

Lemma date_input_args_value (merged : list MergedRow) (lo hi : Z) :
  series_min (map date merged) = Some lo ->
  series_max (map date merged) = Some hi ->
  let first := lo / Ts.Timedelta_days 1 in
  let last := hi / Ts.Timedelta_days 1 in
  date_input_args merged
  = {| value := [Some (Z.max first (last - 365)); Some last];
       min_value := Some first;
       max_value := Some last |}
  /\ first <= Z.max first (last - 365) <= last
  /\ last - Z.max first (last - 365) <= 365
  /\ (last - first <= 365 -> default_start merged = Some first).
Proof.
  intros Elo Ehi first last.
  assert (Hle : lo <= hi).
  { apply series_min_spec in Elo as [Hin _].
    apply series_max_spec in Ehi as [_ Hmax]. now apply Hmax. }
  assert (Hd : first <= last).
  { apply Z.div_le_mono; [apply Timedelta_day_pos|exact Hle]. }
  assert (E : default_start merged = Some (Z.max first (last - 365))).
  { unfold default_start. rewrite Elo, Ehi, to_date_sub_days.
    unfold Ts.to_date. apply py_max_some. }
  repeat split; try lia.
  - unfold date_input_args. rewrite E, Elo, Ehi. reflexivity.
  - intros H. rewrite E. f_equal. lia.
Qed.

(** A merged table with a row gives the date input proper days, and the
    widget returns a range. *)
Lemma st_date_input_of_rows (crypto : list CryptoRow) (stock : list StockRow)
  (picked : option (list Z)) :
  merged_df crypto stock <> [] ->
  exists start_date end_date,
    value (date_input_args (merged_df crypto stock))
    = [Some start_date; Some end_date]
    /\ st_date_input (date_input_args (merged_df crypto stock)) picked
       = inr (match picked with
              | Some date_range => date_range
              | None => [start_date; end_date]
              end).
Proof.
  intros N. destruct (merged_df crypto stock) as [|m l] eqn:E; [now contradiction N|].
  assert (Hd : exists t, date m = Some t).
  { assert (Hm : In m (merged_df crypto stock)) by (rewrite E; now left).
    apply in_merged_df in Hm as (c & s & t & _ & _ & Ec & _ & ->). now exists t. }
  destruct Hd as [t Et].
  assert (Hin : In (Some t) (map date (m :: l))) by (left; exact Et).
  destruct (series_min_some _ _ Hin) as [lo Elo].
  destruct (series_max_some _ _ Hin) as [hi Ehi].
  destruct (date_input_args_value (m :: l) lo hi Elo Ehi) as (A & _).
  unfold st_date_input. rewrite A. cbn [value min_value max_value].
  eauto.
Qed.

(** The page of a merged table without rows: the date input raises. *)
Lemma page_of_empty_merge (np : Corr.Arith) (crypto : list CryptoRow)
  (stock : list StockRow) (picked : option (list Z)) (correlation_period : string) :
  merged_df crypto stock = [] ->
  page np crypto stock picked correlation_period = ([], Some ValueError).
Proof.
  intros E. unfold page. rewrite E. reflexivity.
Qed.

(** The page behind a date input that returned [date_range]. *)
Lemma page_of_date_range (np : Corr.Arith) (crypto : list CryptoRow)
  (stock : list StockRow) (picked : option (list Z)) (correlation_period : string)
  (date_range : list Z) :
  let merged := merged_df crypto stock in
  let view := merged_filtered merged date_range in
  let c := correlate np (corr_data merged correlation_period) in
  st_date_input (date_input_args merged) picked = inr date_range ->
  page np crypto stock picked correlation_period
  = (metrics_of c
       :: map InsightCard (insights c)
       ++ [Chart "Crypto vs Stock Fear & Greed Indices" view;
           Chart ("Correlation between Stock and Crypto Sentiment (r = "
                    ++ Fmt.fmt2f (correlation_fg c) ++ ")") view;
           Chart "Bitcoin Price vs. Crypto Fear & Greed Index" view;
           Chart ("Correlation between Crypto Sentiment and Bitcoin Price (r = "
                    ++ Fmt.fmt2f (correlation_price_fg_crypto c) ++ ")") view;
           Chart "S&P 500 Price vs. Stock Fear & Greed Index" view;
           Chart ("Correlation between Stock Sentiment and S&P 500 Price (r = "
                    ++ Fmt.fmt2f (correlation_price_fg_stock c) ++ ")") view],
     None).
Proof.
  intros merged view c E. unfold page. fold merged. rewrite E. reflexivity.
Qed.

(** A page that was shown passed the date input. *)
Lemma page_shown (np : Corr.Arith) (crypto : list CryptoRow)
  (stock : list StockRow) (picked : option (list Z)) (correlation_period : string)
  (shown : list event) :
  page np crypto stock picked correlation_period = (shown, None) ->
  merged_df crypto stock <> []
  /\ exists date_range,
       st_date_input (date_input_args (merged_df crypto stock)) picked
       = inr date_range.
Proof.
  intros H. split.
  - intros E. rewrite (page_of_empty_merge np _ _ _ _ E) in H. discriminate H.
  - unfold page in H.
    destruct (st_date_input (date_input_args (merged_df crypto stock)) picked)
      as [e|date_range]; [discriminate H|]. now exists date_range.
Qed.

(** ** C2: the common date range, and tables without a common day *)

Lemma filter_nil_of_false {A : Type} (f : A -> bool) (l : list A) :
  (forall x, In x l -> f x = false) -> filter f l = [].
Proof.
  induction l as [|a l IH]; simpl; intros H; [reflexivity|].
  rewrite (H a) by auto. apply IH. auto.
Qed.

Lemma merged_filtered_nil (date_range : list Z) : merged_filtered [] date_range = [].
Proof.
  destruct date_range as [|a [|b [|c l]]]; reflexivity.
Qed.

Lemma corr_data_nil (correlation_period : string) : corr_data [] correlation_period = [].
Proof.
  unfold corr_data.
  repeat match goal with |- context [if ?b then _ else _] => destruct b end;
    reflexivity.
Qed.




(** ** C6: the chart view and the correlation input are separate views *)

Lemma filter_true {A : Type} (l : list A) : filter (fun _ => true) l = l.
Proof.
  induction l as [|a l IH]; simpl; [reflexivity|]. now rewrite IH.
Qed.

(** The chart view keeps, in the order of the merged table, exactly the rows
    of the picked date range. *)
Lemma merged_filtered_is_filter (merged : list MergedRow) (date_range : list Z) :
  exists keep,
    (forall r, keep r = true <-> in_date_range date_range r)
    /\ merged_filtered merged date_range = filter keep merged.
Proof.
  unfold in_date_range, day_within.
  destruct date_range as [|a [|b [|c l]]];
    try (exists (fun _ => true); split;
         [intros r; split; [intros _ x y E; discriminate E | reflexivity]
         | simpl; now rewrite filter_true]).
  eexists. split; [|reflexivity]. intros r. cbv beta. split.
  - intros H x y E. injection E as <- <-.
    destruct (date r) as [t|]; [|discriminate]. cbn [Ts.to_date] in H.
    apply andb_true_iff in H as [H1 H2]. exists t. split; [reflexivity|lia].
  - intros H. destruct (H a b eq_refl) as (t & -> & Ht). cbn [Ts.to_date].
    apply andb_true_iff. split; lia.
Qed.

Lemma last_days_keep (merged : list MergedRow) (days : Z) (r : MergedRow) :
  Ts.ge (date r) (Ts.sub (series_max (map date merged)) (Ts.Timedelta_days days))
  = true
  <-> not_older_than merged days r.
Proof.
  unfold not_older_than. rewrite ts_ge_iff. unfold Ts.sub, Ts.Timedelta_days.
  split.
  - intros (d & y & Hd & Hy & Hle).
    destruct (series_max (map date merged)) as [mx|]; [|discriminate].
    injection Hy as <-. exists d, mx. auto.
  - intros (d & mx & Hd & -> & Hle). exists d, (mx - days * 86400000000000). auto.
Qed.

(** The correlation input keeps, in the order of the merged table, exactly
    the rows of the window. *)
Lemma corr_data_is_filter (merged : list MergedRow) (correlation_period : string) :
  exists keep,
    (forall r, keep r = true <-> in_window merged correlation_period r)
    /\ corr_data merged correlation_period = filter keep merged.
Proof.
  unfold corr_data, in_window, period_days.
  repeat (destruct (_ =? _)%string;
          [eexists; split; [|reflexivity]; intros r; apply last_days_keep|]).
  exists (fun _ => true). split; [tauto|]. now rewrite filter_true.
Qed.

Lemma charted_app (l l' : list event) : charted (l ++ l') = (charted l ++ charted l')%list.
Proof. apply flat_map_app. Qed.

Lemma charted_cards (texts : list string) : charted (map InsightCard texts) = [].
Proof.
  induction texts as [|t texts IH]; [reflexivity|exact IH].
Qed.

Lemma figures_app (l l' : list event) : figures (l ++ l') = (figures l ++ figures l')%list.
Proof. apply filter_app. Qed.

Lemma figures_cards (texts : list string) :
  figures (map InsightCard texts) = map InsightCard texts.
Proof.
  induction texts as [|t texts IH]; simpl; [reflexivity|].
  f_equal. exact IH.
Qed.

(** What a page that was shown draws and prints. *)
Lemma page_views (np : Corr.Arith) (crypto : list CryptoRow)
  (stock : list StockRow) (picked : option (list Z)) (correlation_period : string)
  (date_range : list Z) :
  let merged := merged_df crypto stock in
  let c := correlate np (corr_data merged correlation_period) in
  let shown := fst (page np crypto stock picked correlation_period) in
  st_date_input (date_input_args merged) picked = inr date_range ->
  charted shown = repeat (merged_filtered merged date_range) 6
  /\ figures shown = metrics_of c :: map InsightCard (insights c).
Proof.
  intros merged c shown E. subst shown.
  rewrite (page_of_date_range np crypto stock picked correlation_period date_range E).
  cbn [fst]. fold merged. fold c. split.
  - change (metrics_of c :: ?l) with ([metrics_of c] ++ l)%list.
    rewrite !charted_app, charted_cards. reflexivity.
  - change (metrics_of c :: ?l) with ([metrics_of c] ++ l)%list.
    rewrite !figures_app, figures_cards. cbn. rewrite ?app_nil_r. reflexivity.
Qed.

(** C6. The date range and the correlation window each filter the whole
    merged table. On every page that is shown, the six charts draw one view:
    the rows of the merged table that lie in the range returned by the date
    input (the range the user picked, if any), in the order of the merged
    table, whatever the window is. The metrics and the insights are computed
    from the correlation input: the rows of the merged table that lie in the
    chosen window, in the order of the merged table, whatever the date range
    is. Neither filter is applied to the output of the other. *)
Theorem views_are_independent (np : Corr.Arith) (crypto : list CryptoRow)
  (stock : list StockRow) (picked : option (list Z)) (correlation_period : string)
  (shown : list event) :
  let merged := merged_df crypto stock in
  page np crypto stock picked correlation_period = (shown, None) ->
  exists date_range view input,
    st_date_input (date_input_args merged) picked = inr date_range
    /\ (forall range, picked = Some range -> date_range = range)
    /\ charted shown = repeat view 6
    /\ (exists keep,
          (forall r, keep r = true <-> in_date_range date_range r)
          /\ view = filter keep merged)
    /\ figures shown
       = metrics_of (correlate np input)
         :: map InsightCard (insights (correlate np input))
    /\ (exists keep,
          (forall r, keep r = true <-> in_window merged correlation_period r)
          /\ input = filter keep merged)
    /\ (forall other_period,
          charted (fst (page np crypto stock picked other_period))
          = charted shown)
    /\ (forall other_picked,
          figures (fst (page np crypto stock other_picked correlation_period))
          = figures shown).
Proof.
  intros merged H.
  destruct (page_shown np _ _ _ _ _ H) as [N [date_range E]].
  exists date_range, (merged_filtered merged date_range),
    (corr_data merged correlation_period).
  pose proof (page_views np crypto stock picked correlation_period date_range E)
    as [Hc Hf].
  rewrite H in Hc, Hf. cbn [fst] in Hc, Hf.
  split; [exact E|]. split.
  { intros range ->. destruct (st_date_input_of_rows crypto stock (Some range) N)
      as (a & b & _ & E'). rewrite E in E'. now injection E'. }
  split; [exact Hc|]. split; [apply merged_filtered_is_filter|].
  split; [exact Hf|]. split; [apply corr_data_is_filter|]. split.
  - intros other_period. rewrite Hc.
    now apply (page_views np crypto stock picked other_period date_range).
  - intros other_picked. rewrite Hf.
    destruct (st_date_input_of_rows crypto stock other_picked N)
      as (a & b & _ & E').
    now apply (page_views np crypto stock other_picked correlation_period _ E').
Qed.

Lemma views_are_independent_witness :
  exists view input,
    charted (fst (page no_rounding crypto_123 stock_234 (Some [3; 3]) "Last 1 Month"))
    = repeat view 6
    /\ (exists keep,
          (forall r, keep r = true <-> in_date_range [3; 3] r)
          /\ view = filter keep (merged_df crypto_123 stock_234))
    /\ figures (fst (page no_rounding crypto_123 stock_234 (Some [3; 3]) "Last 1 Month"))
       = metrics_of (correlate no_rounding input)
         :: map InsightCard (insights (correlate no_rounding input))
    /\ (exists keep,
          (forall r, keep r = true
                     <-> in_window (merged_df crypto_123 stock_234) "Last 1 Month" r)
          /\ input = filter keep (merged_df crypto_123 stock_234)).
Proof.
  destruct (views_are_independent no_rounding crypto_123 stock_234 (Some [3; 3])
              "Last 1 Month"
              (fst (page no_rounding crypto_123 stock_234 (Some [3; 3]) "Last 1 Month"))
              eq_refl)
    as (date_range & view & input & _ & R & C & V & F & I & _).
  rewrite (R [3; 3] eq_refl) in V.
  exists view, input. repeat split; assumption.
Defined.

(** The two views differ from a chain of the two filters: on
    [merged_10_15_45], with the range of days 10 to 15 and the one-month
    window, the correlation input holds days 15 and 45 (not days 10 and 15),
    and the chart view holds days 10 and 15 (not day 15 alone). *)
Example views_not_chained :
  map date (corr_data merged_10_15_45 "Last 1 Month") = [day 15; day 45]
  /\ map date (corr_data (merged_filtered merged_10_15_45 [10; 15]) "Last 1 Month")
     = [day 10; day 15]
  /\ map date (merged_filtered merged_10_15_45 [10; 15]) = [day 10; day 15]
  /\ map date (merged_filtered (corr_data merged_10_15_45 "Last 1 Month") [10; 15])
     = [day 15].
Proof. repeat split. Qed.

(** ** C7: no data, no computation *)

Lemma max_name_none (files : list string) : max_name files = None <-> files = [].
Proof.
  destruct files as [|f files]; simpl; [tauto|].
  split; [|discriminate].
  destruct (max_name files) as [g|]; [destruct (String.ltb f g)|]; discriminate.
Qed.

Lemma no_csv_no_latest (names : list string) :
  (forall f, In f names -> endswith f ".csv" = false) ->
  max_name (filter (fun f => endswith f ".csv") names) = None.
Proof.
  intros H. apply max_name_none. now apply filter_nil_of_false.
Qed.

(** The three ways a run ends for lack of data. *)
Lemma run_without_data (np : Corr.Arith) (w : World) (picked : option (list Z))
  (correlation_period : string) :
  let run := app np w picked correlation_period in
  (listdir w crypto_dir = None ->
   load_data w = ([], inl (FileNotFoundError crypto_dir))
   /\ run = raised_not_found crypto_dir)
  /\ (listdir w crypto_dir <> None -> listdir w stock_dir = None ->
      load_data w = ([], inl (FileNotFoundError stock_dir))
      /\ run = raised_not_found stock_dir)
  /\ (listdir w crypto_dir <> None -> listdir w stock_dir <> None ->
      no_data w crypto_dir \/ no_data w stock_dir ->
      load_data w = ([Error "Data files not found!"], inr (None, None))
      /\ run = reported_not_found).
Proof.
  intros run. subst run. unfold app.
  split; [|split].
  - intros E. unfold load_data. rewrite E. split; reflexivity.
  - intros Nc Es. unfold load_data.
    destruct (listdir w crypto_dir); [|contradiction]. rewrite Es.
    split; reflexivity.
  - intros Nc Ns H. unfold load_data, no_data in *.
    destruct (listdir w crypto_dir) as [nc|]; [|contradiction].
    destruct (listdir w stock_dir) as [ns|]; [|contradiction].
    destruct H as [H|H]; rewrite (no_csv_no_latest _ H).
    + split; reflexivity.
    + destruct (max_name (filter _ nc)); split; reflexivity.
Qed.




(** ** Words in a text *)

Lemma mem_app (c : ascii) (s t : string) : mem c (s ++ t) = mem c s || mem c t.
Proof.
  induction s as [|x s IH]; simpl; [reflexivity|].
  now rewrite IH, orb_assoc.
Qed.

Lemma prefix_mem (c : ascii) (w s : string) :
  prefix w s = true -> mem c w = true -> mem c s = true.
Proof.
  revert s; induction w as [|y w IH]; intros [|x s]; simpl; try discriminate.
  destruct (ascii_dec y x) as [->|]; [|discriminate].
  intros Hp Hm. apply orb_true_iff in Hm as [Hm|Hm].
  - now rewrite Hm.
  - rewrite (IH s Hp Hm). apply orb_true_r.
Qed.

Lemma contains_mem (c : ascii) (w s : string) :
  contains w s = true -> mem c w = true -> mem c s = true.
Proof.
  induction s as [|x s IH]; simpl; intros Hc Hm.
  - rewrite orb_false_r in Hc. destruct w; [discriminate Hm|discriminate Hc].
  - apply orb_true_iff in Hc as [Hc|Hc].
    + apply (prefix_mem c w (String x s) Hc Hm).
    + rewrite (IH Hc Hm). apply orb_true_r.
Qed.

(** A word without the character [c] does not reach across [c]. *)
Lemma prefix_split (c : ascii) (w a b : string) :
  mem c w = false -> prefix w (a ++ String c b) = prefix w a.
Proof.
  revert a; induction w as [|y w IH]; intros a Hm.
  - destruct a; reflexivity.
  - simpl in Hm. apply orb_false_iff in Hm as [Hy Hm].
    destruct a as [|x a]; simpl.
    + destruct (ascii_dec y c) as [->|]; [|reflexivity].
      now rewrite Ascii.eqb_refl in Hy.
    + destruct (ascii_dec y x); [apply IH; assumption|reflexivity].
Qed.

Lemma contains_split (c : ascii) (w a b : string) :
  mem c w = false ->
  contains w (a ++ String c b) = contains w a || contains w b.
Proof.
  intros Hm. induction a as [|x a IH].
  - change (EmptyString ++ String c b) with (String c b).
    change (contains w (String c b))
      with (prefix w (String c b) || contains w b).
    change (String c b) with (EmptyString ++ String c b) at 1.
    rewrite (prefix_split c w EmptyString b Hm). simpl.
    now rewrite orb_false_r.
  - change (contains w (String x a ++ String c b))
      with (prefix w (String x a ++ String c b) || contains w (a ++ String c b)).
    change (contains w (String x a))
      with (prefix w (String x a) || contains w a).
    rewrite (prefix_split c w (String x a) b Hm), IH. now rewrite orb_assoc.
Qed.

(** ** The characters of a formatted float *)

Lemma digits_chars (c : ascii) (n : Z) :
  mem c (Fmt.digits n) = true -> mem c "0123456789" = true.
Proof.
  unfold Fmt.digits. generalize (N.to_uint (Z.to_N n)). intros u.
  assert (H : mem c (NilEmpty.string_of_uint u) = true -> mem c "0123456789" = true).
  { induction u; simpl; intros H; try discriminate;
      apply orb_true_iff in H as [H|H]; auto;
      apply Ascii.eqb_eq in H as ->; reflexivity. }
  destruct u; try exact H. simpl. intros E. rewrite orb_false_r in E.
  apply Ascii.eqb_eq in E as ->. reflexivity.
Qed.

Lemma fmt2f_chars (c : ascii) (x : pyfloat) :
  mem c (Fmt.fmt2f x) = true -> mem c "-.0123456789na" = true.
Proof.
  assert (D : mem c "0123456789" = true -> mem c "-.0123456789na" = true).
  { simpl. intros H. repeat (apply orb_true_iff in H as [H|H]; [rewrite H|]);
      rewrite ?orb_true_r; try reflexivity. discriminate H. }
  assert (L : forall y : ascii, mem y "-.0123456789na" = true ->
                               mem c (String y "") = true ->
                               mem c "-.0123456789na" = true).
  { intros y Hy H. simpl in H. rewrite orb_false_r in H.
    apply Ascii.eqb_eq in H as ->. exact Hy. }
  destruct x as [|r]; unfold Fmt.fmt2f.
  - change "nan" with ("n" ++ "a" ++ "n"). rewrite !mem_app, !orb_true_iff.
    intros [H|[H|H]]; revert H; apply L; reflexivity.
  - rewrite !mem_app, !orb_true_iff.
    intros [H|[H|[H|[H|H]]]];
      try (apply D; eapply digits_chars; eassumption).
    + destruct (Rlt_dec r 0); [|discriminate H].
      revert H; apply L; reflexivity.
    + revert H; apply L; reflexivity.
Qed.

(** A word with a character that no formatted float has does not occur in a
    formatted float. *)
Lemma fmt2f_free (c : ascii) (w : string) (x : pyfloat) :
  mem c w = true -> mem c "-.0123456789na" = false ->
  contains w (Fmt.fmt2f x) = false.
Proof.
  intros Hw Hc. destruct (contains w (Fmt.fmt2f x)) eqn:E; [|reflexivity].
  pose proof (fmt2f_chars c x (contains_mem c w _ E Hw)) as H.
  congruence.
Qed.

(** ** C3: the three buckets and their wording *)

Lemma insight_fg_shape (x : pyfloat) :
  insight_fg x
  = before_number x ++ String "(" (Fmt.fmt2f x ++ String ")" (fg_after_number x)).
Proof.
  unfold insight_fg, before_number, fg_after_number, direction.
  generalize (Fmt.fmt2f x). intros num.
  destruct (py_gt (py_abs x) (7 / 10)), (py_gt (py_abs x) (3 / 10)), (py_gt x 0);
    cbn [append]; rewrite <- ?append_assoc; reflexivity.
Qed.

Lemma insight_price_shape (x : pyfloat) :
  insight_price x
  = before_number x ++ String "(" (Fmt.fmt2f x ++ String ")" (price_after_number x)).
Proof.
  unfold insight_price, before_number, price_after_number, direction.
  generalize (Fmt.fmt2f x). intros num.
  destruct (py_gt (py_abs x) (7 / 10)), (py_gt (py_abs x) (3 / 10)), (py_gt x 0);
    cbn [append]; rewrite <- ?append_assoc; reflexivity.
Qed.

(** A word without parentheses and with a character foreign to formatted
    floats occurs in an insight iff it occurs before or after the number. *)
Lemma contains_around_number (w before after : string) (c : ascii) (x : pyfloat) :
  mem "(" w = false -> mem ")" w = false ->
  mem c w = true -> mem c "-.0123456789na" = false ->
  contains w (before ++ String "(" (Fmt.fmt2f x ++ String ")" after))
  = contains w before || contains w after.
Proof.
  intros Hl Hr Hc Ha.
  rewrite (contains_split "(" w _ _ Hl), (contains_split ")" w _ _ Hr).
  now rewrite (fmt2f_free c w x Hc Ha).
Qed.

Lemma Rabs_cases (r : R) :
  (0 <= r /\ Rabs r = r)%R \/ (r < 0 /\ Rabs r = - r)%R.
Proof.
  unfold Rabs. destruct (Rcase_abs r); [right|left]; split; lra.
Qed.

(** The case analysis of an insight on the coefficient [r]: the sign of [r]
    and the three comparisons the script makes. *)
Ltac insight_cases r :=
  unfold before_number, fg_after_number, price_after_number, direction,
    py_gt, py_abs;
  destruct (Rabs_cases r) as [[? ?]|[? ?]];
  repeat match goal with
         | |- context [Rgt_dec ?a ?b] => destruct (Rgt_dec a b)
         end;
  try (exfalso; lra).

Lemma direction_word_in_fg (w : string) (x : pyfloat) :
  In w direction_words ->
  contains w (insight_fg x)
  = contains w (before_number x) || contains w (fg_after_number x).
Proof.
  intros H. rewrite insight_fg_shape.
  simpl in H. destruct H as [<-|[<-|[<-|[<-|[]]]]].
  - now apply (contains_around_number _ _ _ "p").
  - now apply (contains_around_number _ _ _ "g").
  - now apply (contains_around_number _ _ _ "t").
  - now apply (contains_around_number _ _ _ "o").
Qed.

Lemma direction_word_in_price (w : string) (x : pyfloat) :
  In w direction_words ->
  contains w (insight_price x)
  = contains w (before_number x) || contains w (price_after_number x).
Proof.
  intros H. rewrite insight_price_shape.
  simpl in H. destruct H as [<-|[<-|[<-|[<-|[]]]]].
  - now apply (contains_around_number _ _ _ "p").
  - now apply (contains_around_number _ _ _ "g").
  - now apply (contains_around_number _ _ _ "t").
  - now apply (contains_around_number _ _ _ "o").
Qed.

Lemma before_number_bucket_rule (r : R) (rest : string) :
  bucket_rule r (before_number (Fin r) ++ rest).
Proof.
  unfold bucket_rule. insight_cases r;
    (repeat split; intros; try lra; try reflexivity; discriminate).
Qed.

Lemma insight_fg_direction_rule (r : R) : direction_rule r (insight_fg (Fin r)).
Proof.
  unfold direction_rule. split; [|split].
  - intros H w Hw. rewrite (direction_word_in_fg _ _ Hw).
    simpl in Hw. destruct Hw as [<-|[<-|[<-|[<-|[]]]]];
      insight_cases r; reflexivity.
  - intros H1 H2. rewrite !direction_word_in_fg by (simpl; auto).
    insight_cases r; split; reflexivity.
  - intros H1 H2. rewrite !direction_word_in_fg by (simpl; auto).
    insight_cases r; split; reflexivity.
Qed.

Lemma insight_price_direction_rule (r : R) : direction_rule r (insight_price (Fin r)).
Proof.
  unfold direction_rule. split; [|split].
  - intros H w Hw. rewrite (direction_word_in_price _ _ Hw).
    simpl in Hw. destruct Hw as [<-|[<-|[<-|[<-|[]]]]];
      insight_cases r; reflexivity.
  - intros H1 H2. rewrite !direction_word_in_price by (simpl; auto).
    insight_cases r; split; reflexivity.
  - intros H1 H2. rewrite !direction_word_in_price by (simpl; auto).
    insight_cases r; split; reflexivity.
Qed.

(** The strong sentiment insight also says how the two sentiments move. *)
Lemma insight_fg_strong_movement (r : R) :
  (Rabs r > 7 / 10)%R ->
  ((r > 0)%R -> contains "together" (insight_fg (Fin r)) = true
                /\ contains "in opposite directions" (insight_fg (Fin r)) = false)
  /\ ((r < 0)%R -> contains "in opposite directions" (insight_fg (Fin r)) = true
                   /\ contains "together" (insight_fg (Fin r)) = false).
Proof.
  intros H. rewrite !direction_word_in_fg by (simpl; auto 6).
  split; intros Hs; insight_cases r; split; reflexivity.
Qed.

(** C3. For a real coefficient [r], each insight starts with "Strong" iff
    [|r| > 0.7], with "Moderate" iff [0.3 < |r| <= 0.7] and with "Weak" iff
    [|r| <= 0.3]; so 0.7 is moderate and 0.3 is weak. A weak insight holds no
    direction word; a strong or moderate one says "positive" (and never
    "negative") for [r > 0] and "negative" (never "positive") for [r < 0], and
    the strong sentiment insight adds "together" or "in opposite directions"
    by the same sign. *)
Theorem classify_buckets (r : R) :
  (bucket_rule r (insight_fg (Fin r)) /\ bucket_rule r (insight_price (Fin r)))
  /\ (direction_rule r (insight_fg (Fin r))
      /\ direction_rule r (insight_price (Fin r)))
  /\ ((Rabs r > 7 / 10)%R ->
      ((r > 0)%R ->
       contains "together" (insight_fg (Fin r)) = true
       /\ contains "in opposite directions" (insight_fg (Fin r)) = false)
      /\ ((r < 0)%R ->
          contains "in opposite directions" (insight_fg (Fin r)) = true
          /\ contains "together" (insight_fg (Fin r)) = false))
  /\ (prefix "Moderate " (insight_fg (Fin (7 / 10))) = true
      /\ prefix "Moderate " (insight_price (Fin (7 / 10))) = true)
  /\ (prefix "Weak " (insight_fg (Fin (3 / 10))) = true
      /\ prefix "Weak " (insight_price (Fin (3 / 10))) = true).
Proof.
  assert (B : forall q, bucket_rule q (insight_fg (Fin q))
                        /\ bucket_rule q (insight_price (Fin q))).
  { intros q. rewrite insight_fg_shape, insight_price_shape.
    split; apply before_number_bucket_rule. }
  split; [apply B|].
  split; [split; [apply insight_fg_direction_rule|apply insight_price_direction_rule]|].
  split; [apply insight_fg_strong_movement|].
  assert (A7 : (Rabs (7 / 10) = 7 / 10)%R) by (apply Rabs_pos_eq; lra).
  assert (A3 : (Rabs (3 / 10) = 3 / 10)%R) by (apply Rabs_pos_eq; lra).
  destruct (B (7 / 10)%R) as [(_ & M1 & _) (_ & M2 & _)].
  destruct (B (3 / 10)%R) as [(_ & _ & W1) (_ & _ & W2)].
  repeat split; first [apply M1 | apply M2 | apply W1 | apply W2]; lra.
Qed.

(** At [r = -1]: a strong, negative insight about opposite directions. *)
Lemma classify_buckets_witness :
  prefix "Strong " (insight_fg (Fin (-1))) = true
  /\ contains "negative" (insight_fg (Fin (-1))) = true
  /\ contains "in opposite directions" (insight_fg (Fin (-1))) = true.
Proof.
  assert (A : (Rabs (-1) = 1)%R).
  { rewrite Rabs_left by lra. lra. }
  destruct (classify_buckets (-1)) as ([(S & _) _] & [(_ & _ & D) _] & M & _).
  split; [apply S; lra|]. split.
  - apply D; lra.
  - apply M; lra.
Defined.

(** ** C10: two insights, from two of the four coefficients *)

(** C10. The insight list holds exactly two sentences: the first is the
    insight of the sentiment-vs-sentiment coefficient and speaks of the two
    sentiments, the second is the insight of the price-vs-price coefficient
    and speaks of the two prices. The two price-vs-sentiment coefficients have
    no influence: whatever their values, the list is the same. *)
Theorem insights_two_sentences (c : CorrelationResult) :
  insights c = [insight_fg (correlation_fg c); insight_price (correlation_price c)]
  /\ List.length (insights c) = 2%nat
  /\ contains "between crypto and stock market sentiment"
              (insight_fg (correlation_fg c)) = true
  /\ contains "between Bitcoin and S&P 500 prices"
              (insight_price (correlation_price c)) = true
  /\ (forall price_fg_crypto price_fg_stock,
        insights (mkCorr (correlation_fg c) price_fg_crypto price_fg_stock
                         (correlation_price c))
        = insights c).
Proof.
  repeat split.
  - rewrite insight_fg_shape.
    rewrite (contains_around_number _ _ _ "b") by reflexivity.
    unfold fg_after_number.
    destruct (py_gt (py_abs (correlation_fg c)) (7 / 10)),
      (py_gt (py_abs (correlation_fg c)) (3 / 10)), (py_gt (correlation_fg c) 0);
      apply orb_true_r.
  - rewrite insight_price_shape.
    rewrite (contains_around_number _ _ _ "B") by reflexivity.
    unfold price_after_number.
    destruct (py_gt (py_abs (correlation_price c)) (7 / 10)),
      (py_gt (py_abs (correlation_price c)) (3 / 10)), (py_gt (correlation_price c) 0);
      apply orb_true_r.
Qed.

(** ** The coefficient of few observations *)


(** With one observation the deviations are zero and [fact] is zero:
    [0 * (1 / 0)] is [nan]. *)
Lemma cov_one (np : Corr.Arith) (x y : R) : Corr.cov np [x] [y] = Corr.f_nan.
Proof.
  unfold Corr.cov. cbn [List.length map INR].
  rewrite !Corr.average_one, !Corr.subtract_self, Corr.dot_zero.
  destruct (Rle_dec (1 - 1) 0) as [_|N]; [|exfalso; apply N; lra].
  now rewrite Corr.true_divide_zero, Corr.multiply_zero_inf.
Qed.

Lemma np_corrcoef_one (np : Corr.Arith) (p : R * R) : Corr.np_corrcoef np [p] = NaN.
Proof.
  unfold Corr.np_corrcoef. cbn [map]. now rewrite !cov_one, !Corr.divide_nan.
Qed.

Lemma corr_few_pairs (np : Corr.Arith) (a b : list pyfloat) :
  (List.length (Corr.valid_pairs a b) < 2)%nat -> Corr.corr np a b = NaN.
Proof.
  intros H. unfold Corr.corr.
  destruct (Corr.valid_pairs a b) as [|p [|q ps]]; [reflexivity| |simpl in H; lia].
  cbn [List.length Nat.ltb Nat.leb]. apply np_corrcoef_one.
Qed.


(** ** C8: the range of the coefficients *)


(** ** C1: an undefined correlation *)

Lemma insights_of_nan (c : CorrelationResult) :
  (correlation_fg c = NaN ->
   Fmt.fmt2f (correlation_fg c) = "nan" /\ nth 0 (insights c) "" = weak_fg_nan)
  /\ (correlation_price c = NaN ->
      Fmt.fmt2f (correlation_price c) = "nan"
      /\ nth 1 (insights c) "" = weak_price_nan).
Proof.
  unfold insights. split; intros E; cbn [nth]; rewrite E; split; reflexivity.
Qed.

(** With a single pair of observations the four coefficients are [nan],
    whatever the arithmetic, and the insight generation consumes the [nan]
    as a weak correlation: the undefined state has no label of its own. *)
Lemma nan_is_reported_as_weak :
  List.length one_day = 1%nat
  /\ forall np,
       correlate np one_day = mkCorr NaN NaN NaN NaN
       /\ insights (correlate np one_day) = [weak_fg_nan; weak_price_nan]
       /\ prefix "Weak correlation"
                 (insight_fg (correlation_fg (correlate np one_day))) = true.
Proof.
  split; [reflexivity|]. intros np.
  assert (E : correlate np one_day = mkCorr NaN NaN NaN NaN).
  { unfold correlate, one_day. cbn [map fear_greed_index_crypto
      fear_greed_index_stock btc_price price].
    now rewrite !corr_few_pairs by (simpl; lia). }
  rewrite E. repeat split.
Qed.

(** C1 (amended). When fewer than two complete pairs remain, the coefficient
    is [nan], not 0, and is shown as "nan". Whenever a coefficient is [nan],
    for this or any other reason, the insight generation does not fail on it
    and gives it no label of its own: every comparison with [nan] is false,
    so the [nan] falls into the weak bucket and the insight reads "Weak
    correlation (nan) ...". A series without variance is not singled out:
    with two pairs or more the coefficient is whatever the floating-point
    computation yields, [nan] or a number. *)
Theorem degenerate_correlation (np : Corr.Arith) (corr_data : list MergedRow) :
  let c := correlate np corr_data in
  let pairs (f g : MergedRow -> pyfloat) :=
    List.length (Corr.valid_pairs (map f corr_data) (map g corr_data)) in
  ((pairs fear_greed_index_crypto fear_greed_index_stock < 2)%nat ->
   correlation_fg c = NaN
   /\ correlation_fg c <> Fin 0
   /\ Fmt.fmt2f (correlation_fg c) = "nan"
   /\ nth 0 (insights c) "" = weak_fg_nan)
  /\ ((pairs btc_price price < 2)%nat ->
      correlation_price c = NaN
      /\ correlation_price c <> Fin 0
      /\ Fmt.fmt2f (correlation_price c) = "nan"
      /\ nth 1 (insights c) "" = weak_price_nan)
  /\ ((pairs btc_price fear_greed_index_crypto < 2)%nat ->
      correlation_price_fg_crypto c = NaN
      /\ Fmt.fmt2f (correlation_price_fg_crypto c) = "nan")
  /\ ((pairs price fear_greed_index_stock < 2)%nat ->
      correlation_price_fg_stock c = NaN
      /\ Fmt.fmt2f (correlation_price_fg_stock c) = "nan")
  /\ (correlation_fg c = NaN ->
      Fmt.fmt2f (correlation_fg c) = "nan"
      /\ nth 0 (insights c) "" = weak_fg_nan)
  /\ (correlation_price c = NaN ->
      Fmt.fmt2f (correlation_price c) = "nan"
      /\ nth 1 (insights c) "" = weak_price_nan).
Proof.
  intros c pairs. subst pairs. cbv beta.
  destruct (insights_of_nan c) as [If Ip].
  repeat match goal with |- _ /\ _ => split end; try assumption.
  - intros H. assert (E : correlation_fg c = NaN) by now apply corr_few_pairs.
    destruct (If E) as [F I].
    repeat split; [exact E|rewrite E; discriminate|exact F|exact I].
  - intros H. assert (E : correlation_price c = NaN) by now apply corr_few_pairs.
    destruct (Ip E) as [F I].
    repeat split; [exact E|rewrite E; discriminate|exact F|exact I].
  - intros H.
    assert (E : correlation_price_fg_crypto c = NaN) by now apply corr_few_pairs.
    rewrite E. split; reflexivity.
  - intros H.
    assert (E : correlation_price_fg_stock c = NaN) by now apply corr_few_pairs.
    rewrite E. split; reflexivity.
Qed.

(** On [one_pair] the missing stock sentiment of the second day leaves one
    pair of sentiments. *)
Lemma degenerate_correlation_witness :
  correlation_fg (correlate no_rounding one_pair) = NaN
  /\ nth 0 (insights (correlate no_rounding one_pair)) "" = weak_fg_nan.
Proof.
  destruct (degenerate_correlation no_rounding one_pair) as [H _].
  destruct H as (E & _ & _ & I).
  - simpl. lia.
  - split; assumption.
Defined.

(** ** The scenario of the specification, end to end *)

Lemma round_half_even_int (n : Z) : Fmt.round_half_even (IZR n) = n.
Proof.
  unfold Fmt.round_half_even.
  assert (E : Int_part (IZR n) = n).
  { symmetry. apply Int_part_spec. lra. }
  rewrite E. destruct (Rlt_dec (IZR n - IZR n) (1 / 2)) as [_|N]; [reflexivity|].
  exfalso. apply N. lra.
Qed.

(** A tie goes to the even neighbour. *)
Lemma round_half_even_tie (n : Z) :
  Fmt.round_half_even (IZR n + 1 / 2) = if Z.even n then n else n + 1.
Proof.
  unfold Fmt.round_half_even.
  assert (E : Int_part (IZR n + 1 / 2) = n).
  { symmetry. apply Int_part_spec. lra. }
  rewrite E.
  destruct (Rlt_dec (IZR n + 1 / 2 - IZR n) (1 / 2)) as [L|_]; [lra|].
  destruct (Rgt_dec (IZR n + 1 / 2 - IZR n) (1 / 2)) as [G|_]; [lra|].
  reflexivity.
Qed.

Example fmt2f_minus_one : Fmt.fmt2f (Fin (-1)) = "-1.00".
Proof.
  unfold Fmt.fmt2f.
  replace (Rabs (-1) * 100)%R with (IZR 100)
    by (rewrite Rabs_left by lra; lra).
  rewrite round_half_even_int.
  destruct (Rlt_dec (-1) 0) as [_|N]; [reflexivity|lra].
Qed.

Example fmt2f_one_eighth : Fmt.fmt2f (Fin (1 / 8)) = "0.12".
Proof.
  unfold Fmt.fmt2f.
  replace (Rabs (1 / 8) * 100)%R with (IZR 12 + 1 / 2)%R
    by (rewrite Rabs_pos_eq by lra; lra).
  rewrite round_half_even_tie.
  destruct (Rlt_dec (1 / 8) 0) as [L|_]; [lra|reflexivity].
Qed.

Example fmt2f_three_eighths : Fmt.fmt2f (Fin (3 / 8)) = "0.38".
Proof.
  unfold Fmt.fmt2f.
  replace (Rabs (3 / 8) * 100)%R with (IZR 37 + 1 / 2)%R
    by (rewrite Rabs_pos_eq by lra; lra).
  rewrite round_half_even_tie.
  destruct (Rlt_dec (3 / 8) 0) as [L|_]; [lra|reflexivity].
Qed.

(** * Further properties of the script *)

(** ** Choosing the files *)

Lemma substring_0_length (s : string) : substring 0 (String.length s) s = s.
Proof.
  induction s as [|a s IH]; simpl; [reflexivity|]. now rewrite IH.
Qed.

Lemma substring_skip_prefix (p t : string) (m : nat) :
  substring (String.length p) m (p ++ t) = substring 0 m t.
Proof.
  induction p as [|a p IH]; simpl; [reflexivity|]. exact IH.
Qed.

Lemma length_append (s t : string) :
  String.length (s ++ t) = (String.length s + String.length t)%nat.
Proof.
  induction s as [|a s IH]; simpl; [reflexivity|]. now rewrite IH.
Qed.

Lemma substring_split (n : nat) (s : string) :
  (n <= String.length s)%nat ->
  s = substring 0 n s ++ substring n (String.length s - n) s.
Proof.
  revert n; induction s as [|a s IH]; intros [|n] H; simpl in *.
  - reflexivity.
  - lia.
  - now rewrite substring_0_length.
  - f_equal. apply IH. lia.
Qed.

(** [str.endswith]: the suffix ends the string. *)
Lemma endswith_iff (s suffix : string) :
  endswith s suffix = true <-> exists stem, s = stem ++ suffix.
Proof.
  unfold endswith. rewrite andb_true_iff, Nat.leb_le, String.eqb_eq. split.
  - intros [L E]. exists (substring 0 (String.length s - String.length suffix) s).
    assert (H : (String.length s - String.length suffix <= String.length s)%nat)
      by lia.
    apply substring_split in H.
    replace (String.length s - (String.length s - String.length suffix))%nat
      with (String.length suffix) in H by lia.
    now rewrite E in H.
  - intros [stem ->]. rewrite length_append. split; [lia|].
    replace (String.length stem + String.length suffix - String.length suffix)%nat
      with (String.length stem) by lia.
    rewrite substring_skip_prefix. apply substring_0_length.
Qed.

Lemma ascii_compare_lt_trans (a b c : ascii) :
  Ascii.compare a b = Lt -> Ascii.compare b c = Lt -> Ascii.compare a c = Lt.
Proof.
  unfold Ascii.compare. rewrite !N.compare_lt_iff. lia.
Qed.

Lemma string_compare_lt_trans (a b c : string) :
  String.compare a b = Lt -> String.compare b c = Lt -> String.compare a c = Lt.
Proof.
  revert b c; induction a as [|x a IH]; intros [|y b] [|z c]; simpl;
    try discriminate; try reflexivity.
  destruct (Ascii.compare x y) eqn:Exy; try discriminate;
    destruct (Ascii.compare y z) eqn:Eyz; try discriminate; intros H1 H2.
  - apply Ascii.compare_eq_iff in Exy, Eyz. subst.
    assert (E : Ascii.compare z z = Eq) by (unfold Ascii.compare; apply N.compare_refl).
    rewrite E. now apply (IH b c).
  - apply Ascii.compare_eq_iff in Exy. subst. now rewrite Eyz.
  - apply Ascii.compare_eq_iff in Eyz. subst. now rewrite Exy.
  - now rewrite (ascii_compare_lt_trans x y z Exy Eyz).
Qed.

Lemma string_leb_refl (a : string) : String.leb a a = true.
Proof.
  destruct (String.leb_total a a); assumption.
Qed.

Lemma string_leb_trans (a b c : string) :
  String.leb a b = true -> String.leb b c = true -> String.leb a c = true.
Proof.
  unfold String.leb.
  destruct (String.compare a b) eqn:Eab; try discriminate;
    destruct (String.compare b c) eqn:Ebc; try discriminate; intros _ _.
  - apply String.compare_eq_iff in Eab, Ebc. subst.
    apply (string_leb_refl c).
  - apply String.compare_eq_iff in Eab. subst. now rewrite Ebc.
  - apply String.compare_eq_iff in Ebc. subst. now rewrite Eab.
  - now rewrite (string_compare_lt_trans a b c Eab Ebc).
Qed.

(** [max(files)] is a name of the list that no name of the list exceeds. *)
Lemma max_name_spec (files : list string) (m : string) :
  max_name files = Some m ->
  In m files /\ forall g, In g files -> String.leb g m = true.
Proof.
  revert m; induction files as [|f files IH]; simpl; intros m H; [discriminate|].
  destruct (max_name files) as [g0|] eqn:E.
  - destruct (IH g0 eq_refl) as [Hin Hmax].
    destruct (String.ltb f g0) eqn:L; injection H as <-.
    + split; [auto|]. intros g [<-|Hg]; [|auto].
      unfold String.ltb in L. unfold String.leb.
      destruct (String.compare f g0); try discriminate; reflexivity.
    + assert (G : String.leb g0 f = true).
      { unfold String.ltb in L. unfold String.leb.
        rewrite String.compare_antisym.
        destruct (String.compare f g0); try discriminate; reflexivity. }
      split; [auto|]. intros g [<-|Hg]; [apply string_leb_refl|].
      apply (string_leb_trans g g0 f); auto.
  - injection H as <-. apply max_name_none in E. subst files.
    split; [auto|]. intros g [<-|[]]. apply string_leb_refl.
Qed.

Lemma latest_of_listing (names : list string) :
  (exists f, In f names /\ csv_name f) ->
  exists m, max_name (filter (fun f => endswith f ".csv") names) = Some m
            /\ latest_csv names m.
Proof.
  intros (f & Hf & Cf).
  destruct (max_name (filter (fun f => endswith f ".csv") names)) as [m|] eqn:E.
  - exists m. split; [reflexivity|].
    apply max_name_spec in E as [Hin Hmax].
    apply filter_In in Hin as [Hin Hcsv]. apply endswith_iff in Hcsv.
    repeat split; try assumption.
    intros g Hg Cg. apply Hmax. apply filter_In. split; [assumption|].
    now apply endswith_iff.
  - apply max_name_none in E.
    assert (In f (filter (fun f => endswith f ".csv") names)).
    { apply filter_In. split; [assumption|]. now apply endswith_iff. }
    rewrite E in H. contradiction.
Qed.

Lemma load_data_of_listings (w : World) :
  has_csv w crypto_dir -> has_csv w stock_dir ->
  exists names_c names_s fc fs,
    listdir w crypto_dir = Some names_c /\ listdir w stock_dir = Some names_s
    /\ latest_csv names_c fc /\ latest_csv names_s fs
    /\ load_data w
       = ([], inr (Some (read_crypto_csv w ("crypto_fg_index/" ++ fc)),
                   Some (read_stock_csv w ("stock_fg_index/" ++ fs)))).
Proof.
  intros (names_c & f & Lc & Hf & Cf) (names_s & g & Ls & Hg & Cg).
  destruct (latest_of_listing names_c (ex_intro _ f (conj Hf Cf))) as (fc & Ec & Hc).
  destruct (latest_of_listing names_s (ex_intro _ g (conj Hg Cg))) as (fs & Es & Hs).
  exists names_c, names_s, fc, fs. repeat split; try assumption; try apply Hc; try apply Hs.
  unfold load_data. rewrite Lc, Ls, Ec, Es. reflexivity.
Qed.

(** X1. When both directories hold a CSV file, [load_data] shows nothing and
    returns the tables read from [crypto_fg_index/fc] and
    [stock_fg_index/fs], where [fc] and [fs] are the newest CSV files of the
    two listings: files of other extensions are never read, and no CSV name
    of the listing is greater than the one chosen. *)
Theorem load_data_reads_latest_csv (w : World) :
  has_csv w crypto_dir -> has_csv w stock_dir ->
  exists names_c names_s fc fs,
    listdir w crypto_dir = Some names_c /\ listdir w stock_dir = Some names_s
    /\ latest_csv names_c fc /\ latest_csv names_s fs
    /\ load_data w
       = ([], inr (Some (read_crypto_csv w ("crypto_fg_index/" ++ fc)),
                   Some (read_stock_csv w ("stock_fg_index/" ++ fs)))).
Proof. exact (load_data_of_listings w). Qed.

(** A world with two CSV files and a text file in each directory. *)
Lemma load_data_reads_latest_csv_witness :
  exists c s,
    load_data {| listdir := fun _ => Some ["2024-01-01.csv"; "notes.txt"; "2024-02-01.csv"];
                 read_crypto_csv := fun _ => crypto_123;
                 read_stock_csv := fun _ => stock_234 |}
    = ([], inr (Some c, Some s)).
Proof.
  destruct (load_data_reads_latest_csv
              {| listdir := fun _ => Some ["2024-01-01.csv"; "notes.txt"; "2024-02-01.csv"];
                 read_crypto_csv := fun _ => crypto_123;
                 read_stock_csv := fun _ => stock_234 |})
    as (nc & ns & fc & fs & _ & _ & _ & _ & E).
  - exists ["2024-01-01.csv"; "notes.txt"; "2024-02-01.csv"], "2024-01-01.csv".
    repeat split; [simpl; auto|]. now exists "2024-01-01".
  - exists ["2024-01-01.csv"; "notes.txt"; "2024-02-01.csv"], "2024-01-01.csv".
    repeat split; [simpl; auto|]. now exists "2024-01-01".
  - eauto.
Defined.

(** ** The outcomes of a run *)

(** A page that is shown has nine elements, none of them an error message. *)
Lemma page_of_rows (np : Corr.Arith) (crypto : list CryptoRow)
  (stock : list StockRow) (picked : option (list Z)) (correlation_period : string) :
  merged_df crypto stock <> [] ->
  let run := page np crypto stock picked correlation_period in
  snd run = None
  /\ List.length (fst run) = 9%nat
  /\ forall msg, ~ In (Error msg) (fst run).
Proof.
  intros N run. subst run.
  destruct (st_date_input_of_rows crypto stock picked N) as (a & b & _ & E).
  rewrite (page_of_date_range np crypto stock picked correlation_period _ E).
  split; [reflexivity|]. split; [reflexivity|]. intros msg H. simpl in H.
  repeat (destruct H as [H|H]; [discriminate H|]). exact H.
Qed.

(** X2. The outcomes of a run, by what the two directories hold. A missing
    crypto directory raises [FileNotFoundError] for it, whatever the stock
    directory is. With the crypto directory present, a missing stock
    directory raises for the stock directory, even when the crypto directory
    holds no CSV file. With both directories present and one without CSV
    file, the two error messages are shown and nothing is raised. With a CSV
    file in both, the run is the page of the two tables: when they share no
    date, the date input raises [ValueError] and nothing is shown; otherwise
    nothing is raised and nine elements are shown, none of them an error
    message. *)
Theorem app_outcomes (np : Corr.Arith) (w : World) (picked : option (list Z))
  (correlation_period : string) :
  let run := app np w picked correlation_period in
  (listdir w crypto_dir = None -> run = raised_not_found crypto_dir)
  /\ (listdir w crypto_dir <> None -> listdir w stock_dir = None ->
      run = raised_not_found stock_dir)
  /\ (listdir w crypto_dir <> None -> listdir w stock_dir <> None ->
      no_data w crypto_dir \/ no_data w stock_dir ->
      run = reported_not_found)
  /\ (has_csv w crypto_dir -> has_csv w stock_dir ->
      exists crypto_df stock_df,
        load_data w = ([], inr (Some crypto_df, Some stock_df))
        /\ run = page np crypto_df stock_df picked correlation_period
        /\ (merged_df crypto_df stock_df = [] -> run = ([], Some ValueError))
        /\ (merged_df crypto_df stock_df <> [] ->
            snd run = None
            /\ List.length (fst run) = 9%nat
            /\ forall msg, ~ In (Error msg) (fst run))).
Proof.
  intros run.
  destruct (run_without_data np w picked correlation_period) as (A & B & C).
  fold run in A, B, C.
  split; [intros E; now apply A|]. split; [intros N E; now apply B|].
  split; [intros Nc Ns H; now apply C|].
  intros Hc Hs.
  destruct (load_data_of_listings w Hc Hs)
    as (nc & ns & fc & fs & _ & _ & _ & _ & E).
  set (crypto_df := read_crypto_csv w ("crypto_fg_index/" ++ fc)) in *.
  set (stock_df := read_stock_csv w ("stock_fg_index/" ++ fs)) in *.
  assert (R : run = page np crypto_df stock_df picked correlation_period).
  { subst run. unfold app. rewrite E. cbn [List.app].
    now destruct (page np crypto_df stock_df picked correlation_period). }
  exists crypto_df, stock_df.
  split; [exact E|]. split; [exact R|]. rewrite R. split.
  - apply page_of_empty_merge.
  - apply page_of_rows.
Qed.

(** No stock directory, and a crypto directory without any file. *)
Lemma app_outcomes_witness :
  app no_rounding
      {| listdir := fun dir => if (dir =? crypto_dir)%string then Some [] else None;
         read_crypto_csv := fun _ => crypto_123;
         read_stock_csv := fun _ => stock_234 |} None "All Time"
  = raised_not_found stock_dir.
Proof.
  apply (app_outcomes no_rounding _ None "All Time"); simpl; [discriminate|reflexivity].
Defined.

(** ** More on the merge *)

Lemma key_eqb_eq (a b : Timestamp) : Ts.key_eqb a b = true <-> a = b.
Proof.
  destruct a as [x|], b as [y|]; simpl; split; intros H;
    try discriminate; try reflexivity.
  - apply Z.eqb_eq in H. now subst.
  - injection H as ->. apply Z.eqb_refl.
Qed.

Lemma filter_filter_absorb {A : Type} (p q : A -> bool) (l : list A) :
  (forall x, In x l -> p x = true -> q x = true) ->
  filter p (filter q l) = filter p l.
Proof.
  induction l as [|a l IH]; intros H; simpl; [reflexivity|].
  assert (H' : forall x, In x l -> p x = true -> q x = true)
    by (intros x Hx; apply H; now right).
  destruct (q a) eqn:Q; simpl.
  - now rewrite (IH H').
  - destruct (p a) eqn:P.
    + rewrite (H a (or_introl eq_refl) P) in Q. discriminate.
    + exact (IH H').
Qed.

Lemma flat_map_filter_ext {A B : Type} (p q : A -> bool) (f g : A -> list B)
  (l : list A) :
  (forall x, In x l ->
     (if p x then f x else []) = (if q x then g x else [])) ->
  flat_map f (filter p l) = flat_map g (filter q l).
Proof.
  induction l as [|a l IH]; intros H; simpl; [reflexivity|].
  pose proof (H a (or_introl eq_refl)) as Ha.
  pose proof (IH (fun x Hx => H x (or_intror Hx))) as E.
  destruct (p a), (q a); simpl; rewrite E;
    first [now rewrite Ha | now rewrite <- Ha | reflexivity].
Qed.

Lemma merged_df_join_dated (crypto : list CryptoRow) (stock : list StockRow) :
  merged_df crypto stock = pd_merge (filter dated crypto) stock.
Proof.
  unfold merged_df, pd_merge, crypto_filtered.
  apply flat_map_filter_ext. intros c Hc. cbv beta.
  destruct (Ts.ge (c_date c) (min_date crypto stock)
            && Ts.le (c_date c) (max_date crypto stock)) eqn:R.
  - pose proof R as R'. apply in_range_some in R' as (d & _ & _ & Ed & _).
    unfold dated. rewrite Ed. f_equal. unfold stock_filtered.
    apply filter_filter_absorb. intros s Hs K.
    apply key_eqb_eq in K. cbv beta. rewrite <- K. now rewrite Ed in R.
  - unfold dated. destruct (c_date c) as [d|] eqn:Ed; [|reflexivity].
    replace (filter (fun s => Ts.key_eqb (Some d) (s_date s)) stock)
      with (@nil StockRow); [reflexivity|].
    symmetry. apply filter_nil_of_false. intros s Hs.
    destruct (Ts.key_eqb (Some d) (s_date s)) eqn:K; [|reflexivity].
    apply key_eqb_eq in K.
    rewrite common_date_in_range in R; [discriminate| |].
    + rewrite <- Ed. now apply in_map.
    + rewrite K. now apply in_map.
Qed.

(** X3. The filter of the two tables to the common date range does not change
    the join: the merged table is the inner join of the whole stock table
    with the crypto rows that carry a date, row for row and in the same
    order. The range filter only keeps null dates from matching each
    other. *)
Theorem merged_df_without_range_filter (crypto : list CryptoRow) (stock : list StockRow) :
  merged_df crypto stock = pd_merge (filter dated crypto) stock.
Proof. exact (merged_df_join_dated crypto stock). Qed.

Lemma py_max_nat_l (b : Timestamp) : py_max None b = None.
Proof. unfold py_max. now destruct b. Qed.

Lemma py_max_nat_r (a : Timestamp) : py_max a None = a.
Proof. reflexivity. Qed.

Lemma py_min_nat_l (b : Timestamp) : py_min None b = None.
Proof. unfold py_min. now destruct b. Qed.

(** X4. An empty table on either side empties the merged table, but the two
    sides are not treated alike: [max(NaT, x)] is [NaT] and [max(x, NaT)] is
    [x]. With an empty crypto table both bounds of the common range are
    [NaT]; with an empty stock table they are the first and the last date of
    the crypto table, and the range filter keeps every dated crypto row. *)
Theorem empty_table_bounds :
  (forall stock,
     min_date [] stock = None /\ max_date [] stock = None
     /\ merged_df [] stock = [])
  /\ (forall crypto,
        min_date crypto [] = series_min (map c_date crypto)
        /\ max_date crypto [] = series_max (map c_date crypto)
        /\ crypto_filtered crypto [] = filter dated crypto
        /\ merged_df crypto [] = []).
Proof.
  split.
  - intros stock. unfold min_date, max_date. simpl.
    rewrite py_max_nat_l, py_min_nat_l. auto.
  - intros crypto.
    assert (Emin : min_date crypto [] = series_min (map c_date crypto)) by reflexivity.
    assert (Emax : max_date crypto [] = series_max (map c_date crypto)) by reflexivity.
    repeat split.
    + unfold crypto_filtered. rewrite Emin, Emax. apply filter_ext_in.
      intros c Hc. unfold dated. destruct (c_date c) as [d|] eqn:Ed; [|reflexivity].
      assert (Hd : In (Some d) (map c_date crypto)) by (rewrite <- Ed; now apply in_map).
      destruct (series_min_some _ _ Hd) as [lo Elo].
      destruct (series_max_some _ _ Hd) as [hi Ehi].
      rewrite Elo, Ehi.
      apply series_min_spec in Elo as [_ Hlo]. apply series_max_spec in Ehi as [_ Hhi].
      specialize (Hlo d Hd). specialize (Hhi d Hd). simpl.
      apply andb_true_iff. split; lia.
    + rewrite merged_df_join_dated. unfold pd_merge.
      induction (filter dated crypto) as [|c l IH]; simpl; [reflexivity|exact IH].
Qed.

(** With distinct keys on the right, a key finds one row or none. *)
Lemma unique_match (stock : list StockRow) (d : Timestamp) :
  NoDup (map s_date stock) ->
  List.length (filter (fun s => Ts.key_eqb d (s_date s)) stock)
  = if existsb (Ts.key_eqb d) (map s_date stock) then 1%nat else 0%nat.
Proof.
  induction stock as [|s stock IH]; simpl; intros N; [reflexivity|].
  apply NoDup_cons_iff in N as [Hnot N]. specialize (IH N).
  destruct (Ts.key_eqb d (s_date s)) eqn:K; simpl; [|exact IH].
  apply key_eqb_eq in K. subst d.
  destruct (existsb (Ts.key_eqb (s_date s)) (map s_date stock)) eqn:E.
  - apply existsb_exists in E as (x & Hx & Kx). apply key_eqb_eq in Kx.
    subst x. contradiction.
  - now rewrite IH.
Qed.

Lemma NoDup_filter {A : Type} (f : A -> bool) (l : list A) :
  NoDup l -> NoDup (filter f l).
Proof.
  induction 1 as [|a l Hnot N IH]; simpl; [constructor|].
  destruct (f a); [|exact IH]. constructor; [|exact IH].
  intros H. apply filter_In in H as [H _]. contradiction.
Qed.

(** X5. When the dates of the stock table are distinct, the dates of the
    merged table are the dates of the crypto table that the stock table
    holds too, in the order of the crypto table and as often as the crypto
    table has them. So the merged table is no longer than the crypto table,
    and when the dates of the crypto table are distinct as well, so are the
    dates of the merged table, which is then no longer than the stock table
    either. *)
Theorem merged_df_dates (crypto : list CryptoRow) (stock : list StockRow) :
  NoDup (map s_date stock) ->
  map date (merged_df crypto stock)
  = filter (stock_has stock) (map c_date crypto)
  /\ (List.length (merged_df crypto stock) <= List.length crypto)%nat
  /\ (NoDup (map c_date crypto) ->
      NoDup (map date (merged_df crypto stock))
      /\ (List.length (merged_df crypto stock) <= List.length stock)%nat).
Proof.
  intros N.
  assert (E : map date (merged_df crypto stock)
              = filter (stock_has stock) (map c_date crypto)).
  { rewrite merged_df_join_dated. unfold pd_merge.
    induction crypto as [|c crypto IH]; simpl; [reflexivity|].
    unfold dated at 1. unfold stock_has at 1.
    destruct (c_date c) as [d|] eqn:Ed; [|exact IH].
    simpl. rewrite map_app, IH, map_map. clear IH. simpl. rewrite !Ed.
    pose proof (unique_match stock (Some d) N) as U.
    destruct (existsb (Ts.key_eqb (Some d)) (map s_date stock)).
    - destruct (filter (fun s => Ts.key_eqb (Some d) (s_date s)) stock)
        as [|s [|s' l]]; try discriminate U.
      reflexivity.
    - destruct (filter (fun s => Ts.key_eqb (Some d) (s_date s)) stock);
        [reflexivity|discriminate U]. }
  split; [exact E|]. split.
  - rewrite <- (length_map date), E, <- (length_map c_date crypto).
    apply filter_length_le.
  - intros Nc.
    assert (Nm : NoDup (map date (merged_df crypto stock))).
    { rewrite E. now apply NoDup_filter. }
    split; [exact Nm|].
    rewrite <- (length_map date), <- (length_map s_date stock).
    apply NoDup_incl_length; [exact Nm|].
    intros d Hd. rewrite E in Hd. apply filter_In in Hd as [_ Hd].
    unfold stock_has in Hd. destruct d as [x|]; [|discriminate].
    apply existsb_exists in Hd as (y & Hy & K).
    apply key_eqb_eq in K. now subst y.
Qed.

Lemma merged_df_dates_witness :
  map date (merged_df crypto_123 stock_234) = [day 2; day 3]
  /\ (List.length (merged_df crypto_123 stock_234) <= 3)%nat.
Proof.
  assert (N : NoDup (map s_date stock_234)).
  { simpl. vm_compute. repeat constructor; simpl; intuition discriminate. }
  destruct (merged_df_dates crypto_123 stock_234 N) as (E & L & _).
  split; [rewrite E; reflexivity|exact L].
Defined.

(** ** The date input and the chart view *)

(** X6. On a merged table with dates, whose first day is [first] and last day
    is [last], the date input starts on [max(first, last - 365)] and ends on
    [last]: the default range is the last 365 days, or the whole table when
    it spans no more than 365 days, and it lies within the bounds
    [min_value = first] and [max_value = last] given to the widget. *)
Theorem default_date_range (merged : list MergedRow) (lo hi : Z) :
  series_min (map date merged) = Some lo ->
  series_max (map date merged) = Some hi ->
  let first := lo / Ts.Timedelta_days 1 in
  let last := hi / Ts.Timedelta_days 1 in
  date_input_args merged
  = {| value := [Some (Z.max first (last - 365)); Some last];
       min_value := Some first;
       max_value := Some last |}
  /\ first <= Z.max first (last - 365) <= last
  /\ last - Z.max first (last - 365) <= 365
  /\ (last - first <= 365 -> default_start merged = Some first).
Proof. exact (date_input_args_value merged lo hi). Qed.

Lemma default_date_range_witness :
  date_input_args merged_10_15_45
  = {| value := [Some 10; Some 45]; min_value := Some 10; max_value := Some 45 |}.
Proof.
  apply (default_date_range merged_10_15_45
           (Ts.Timedelta_days 10) (Ts.Timedelta_days 45)); reflexivity.
Defined.

Lemma in_merged_filtered (merged : list MergedRow) (start_date end_date : Z)
  (r : MergedRow) :
  In r (merged_filtered merged [start_date; end_date])
  <-> In r merged /\ day_within start_date end_date r.
Proof.
  unfold merged_filtered, day_within. rewrite filter_In.
  split; intros [Hin H]; (split; [assumption|]).
  - destruct (date r) as [t|]; [|discriminate]. cbn [Ts.to_date] in H.
    apply andb_true_iff in H as [H1 H2]. exists t. split; [reflexivity|lia].
  - destruct H as (t & -> & H). cbn [Ts.to_date].
    apply andb_true_iff. split; lia.
Qed.

Lemma filter_all {A : Type} (f : A -> bool) (l : list A) :
  (forall x, In x l -> f x = true) -> filter f l = l.
Proof.
  induction l as [|a l IH]; simpl; intros H; [reflexivity|].
  rewrite (H a) by auto. f_equal. apply IH. auto.
Qed.

Lemma filter_filter {A : Type} (f g : A -> bool) (l : list A) :
  filter f (filter g l) = filter (fun x => g x && f x) l.
Proof.
  induction l as [|a l IH]; simpl; [reflexivity|].
  destruct (g a); simpl; [destruct (f a)|]; now rewrite IH.
Qed.

(** X7. A picked range keeps the rows whose calendar day lies in it, both
    ends included; a range whose end precedes its start keeps nothing; a
    range that holds the day of every row keeps the table as it is; and a
    second range applied to the view of a first one gives the view of their
    intersection. Rows of a merged table all carry a date, so picking the
    whole range the widget offers shows the whole merged table. *)
Theorem merged_filtered_ranges (merged : list MergedRow) (a b : Z) :
  (forall r, In r (merged_filtered merged [a; b])
             <-> In r merged /\ day_within a b r)
  /\ (b < a -> merged_filtered merged [a; b] = [])
  /\ ((forall r, In r merged -> day_within a b r) ->
      merged_filtered merged [a; b] = merged)
  /\ (forall c d,
        merged_filtered (merged_filtered merged [a; b]) [c; d]
        = merged_filtered merged [Z.max a c; Z.min b d])
  /\ (forall crypto stock lo hi,
        merged = merged_df crypto stock ->
        series_min (map date merged) = Some lo ->
        series_max (map date merged) = Some hi ->
        merged_filtered merged [lo / Ts.Timedelta_days 1; hi / Ts.Timedelta_days 1]
        = merged).
Proof.
  split; [intros r; apply in_merged_filtered|].
  assert (All : forall x y, (forall r, In r merged -> day_within x y r) ->
                            merged_filtered merged [x; y] = merged).
  { intros x y H. unfold merged_filtered. apply filter_all. intros r Hr.
    destruct (H r Hr) as (t & -> & Ht). cbn [Ts.to_date].
    apply andb_true_iff. split; lia. }
  split; [|split; [apply All|split]].
  - intros Hba. unfold merged_filtered. apply filter_nil_of_false. intros r _.
    destruct (Ts.to_date (date r)) as [t|]; [|reflexivity].
    apply andb_false_iff. destruct (Z.ltb_spec t a); [left|right]; lia.
  - intros c d. unfold merged_filtered. rewrite filter_filter.
    apply filter_ext. intros r. destruct (Ts.to_date (date r)) as [t|]; [|reflexivity].
    destruct (Z.geb_spec t a), (Z.leb_spec t b), (Z.geb_spec t c), (Z.leb_spec t d),
      (Z.geb_spec t (Z.max a c)), (Z.leb_spec t (Z.min b d)); simpl; lia || reflexivity.
  - intros crypto stock lo hi -> Elo Ehi. apply All. intros r Hr.
    assert (Hin : In (date r) (map date (merged_df crypto stock)))
      by now apply in_map.
    apply in_merged_df in Hr as (c & s & t & _ & _ & Ec & _ & ->).
    unfold day_within. cbn [date join_rows] in *. rewrite Ec in Hin.
    exists t. split; [exact Ec|].
    apply series_min_spec in Elo as [_ Hlo]. apply series_max_spec in Ehi as [_ Hhi].
    specialize (Hlo t Hin). specialize (Hhi t Hin).
    split; apply Z.div_le_mono; try apply Timedelta_day_pos; assumption.
Qed.

(** The whole offered range of the merged sample tables shows both rows. *)
Lemma merged_filtered_ranges_witness :
  merged_filtered (merged_df crypto_123 stock_234) [2; 3]
  = merged_df crypto_123 stock_234
  /\ merged_filtered (merged_df crypto_123 stock_234) [3; 2] = [].
Proof.
  destruct (merged_filtered_ranges (merged_df crypto_123 stock_234) 2 3)
    as (_ & _ & _ & _ & W).
  destruct (merged_filtered_ranges (merged_df crypto_123 stock_234) 3 2)
    as (_ & E & _).
  split.
  - apply (W crypto_123 stock_234 (Ts.Timedelta_days 2) (Ts.Timedelta_days 3));
      reflexivity.
  - apply E. lia.
Defined.

(** X8. With the default range of the date input, the chart view holds every
    row of the "Last 1 Year" correlation window; when all timestamps are
    midnights the two tables are equal. (A row of the first calendar day of
    the range, at an earlier time of day than the newest row, is charted but
    left out of the window.) *)
Theorem default_view_and_year_window (merged : list MergedRow) (lo hi start_date : Z) :
  series_min (map date merged) = Some lo ->
  series_max (map date merged) = Some hi ->
  default_start merged = Some start_date ->
  let view := merged_filtered merged [start_date; hi / Ts.Timedelta_days 1] in
  incl (corr_data merged "Last 1 Year") view
  /\ (midnights merged -> view = corr_data merged "Last 1 Year").
Proof.
  intros Elo Ehi Es view.
  destruct (date_input_args_value merged lo hi Elo Ehi) as (_ & Hb & _ & _).
  assert (E : start_date
              = Z.max (lo / Ts.Timedelta_days 1) (hi / Ts.Timedelta_days 1 - 365)).
  { unfold default_start in Es.
    rewrite Elo, Ehi, to_date_sub_days in Es. unfold Ts.to_date in Es.
    rewrite py_max_some in Es. now injection Es as <-. }
  assert (Bounds : forall r t, In r merged -> date r = Some t ->
            lo / Ts.Timedelta_days 1 <= t / Ts.Timedelta_days 1
            /\ t / Ts.Timedelta_days 1 <= hi / Ts.Timedelta_days 1).
  { intros r t Hr Et.
    assert (Hin : In (Some t) (map date merged)) by (rewrite <- Et; now apply in_map).
    apply series_min_spec in Elo as [_ Hlo]. apply series_max_spec in Ehi as [_ Hhi].
    specialize (Hlo t Hin). specialize (Hhi t Hin).
    split; apply Z.div_le_mono; try apply Timedelta_day_pos; assumption. }
  change (corr_data merged "Last 1 Year") with (last_days merged 365).
  split.
  - intros r Hr. apply in_last_days in Hr as [Hr (t & mx & Et & Emx & Hle)].
    rewrite Ehi in Emx. injection Emx as <-.
    apply in_merged_filtered. split; [assumption|]. exists t. split; [assumption|].
    destruct (Bounds r t Hr Et) as [B1 B2]. split; [|assumption].
    assert (D : (hi - 365 * 86400000000000) / Ts.Timedelta_days 1
                <= t / Ts.Timedelta_days 1).
    { apply Z.div_le_mono; [apply Timedelta_day_pos|assumption]. }
    replace (hi - 365 * 86400000000000)
      with (hi + (- 365) * Ts.Timedelta_days 1) in D
      by (unfold Ts.Timedelta_days; lia).
    rewrite Z.div_add in D by (pose proof Timedelta_day_pos; lia). lia.
  - intros M. unfold view, merged_filtered, last_days.
    apply filter_ext_in. intros r Hr. rewrite Ehi.
    destruct (date r) as [t|] eqn:Et; [|reflexivity].
    cbn [Ts.to_date Ts.sub Ts.ge].
    destruct (Bounds r t Hr Et) as [B1 B2].
    assert (Mt : t mod Ts.Timedelta_days 1 = 0) by (apply (M r t Hr Et)).
    assert (Mh : hi mod Ts.Timedelta_days 1 = 0).
    { apply series_max_spec in Ehi as [Hin _].
      apply in_map_iff in Hin as (r' & Er' & Hr'). apply (M r' hi Hr' Er'). }
    pose proof (Z.div_mod t (Ts.Timedelta_days 1)) as Dt.
    pose proof (Z.div_mod hi (Ts.Timedelta_days 1)) as Dh.
    pose proof Timedelta_day_pos as P.
    rewrite Mt in Dt. rewrite Mh in Dh.
    specialize (Dt ltac:(lia)). specialize (Dh ltac:(lia)).
    set (k := t / Ts.Timedelta_days 1) in *.
    set (m := hi / Ts.Timedelta_days 1) in *.
    assert (T1 : Ts.Timedelta_days 365 = 365 * Ts.Timedelta_days 1) by reflexivity.
    rewrite T1. set (D := Ts.Timedelta_days 1) in *.
    destruct (Z.geb_spec k start_date), (Z.leb_spec k m),
      (Z.geb_spec t (hi - 365 * D)); simpl; try reflexivity; exfalso; nia.
Qed.

Lemma default_view_and_year_window_witness :
  merged_filtered merged_10_15_45 [10; 45] = corr_data merged_10_15_45 "Last 1 Year".
Proof.
  apply (default_view_and_year_window merged_10_15_45
           (Ts.Timedelta_days 10) (Ts.Timedelta_days 45) 10);
    try reflexivity.
  intros r t [<-|[<-|[<-|[]]]] E; injection E as <-; reflexivity.
Defined.

Example default_view_exceeds_year_window :
  date_input_args merged_midday
  = {| value := [Some 35; Some 400]; min_value := Some 35; max_value := Some 400 |}
  /\ merged_filtered merged_midday [35; 400] = merged_midday
  /\ corr_data merged_midday "Last 1 Year" = tl merged_midday.
Proof. repeat split. Qed.

(** ** More on the correlation windows *)

Lemma series_max_unique (col : list Timestamp) (m : Z) :
  In (Some m) col -> (forall x, In (Some x) col -> x <= m) ->
  series_max col = Some m.
Proof.
  intros Hin Hmax. destruct (series_max_some col m Hin) as [m' E].
  rewrite E. f_equal.
  apply series_max_spec in E as [Hin' Hmax'].
  specialize (Hmax m' Hin'). specialize (Hmax' m Hin). lia.
Qed.

Lemma last_days_max (merged : list MergedRow) (days hi : Z) :
  0 <= days ->
  series_max (map date merged) = Some hi ->
  series_max (map date (last_days merged days)) = Some hi.
Proof.
  intros Hd E. pose proof E as E'. apply series_max_spec in E' as [Hin Hmax].
  apply series_max_unique.
  - apply in_map_iff in Hin as (r & Er & Hr). apply in_map_iff. exists r.
    split; [assumption|]. apply in_last_days. split; [assumption|].
    exists hi, hi. repeat split; try assumption. lia.
  - intros x Hx. apply in_map_iff in Hx as (r & Er & Hr).
    apply in_last_days in Hr as [Hr _]. apply Hmax. rewrite <- Er. now apply in_map.
Qed.

Lemma last_days_nested (merged : list MergedRow) (days days' : Z) :
  0 <= days <= days' ->
  last_days (last_days merged days') days = last_days merged days.
Proof.
  intros Hd. destruct (series_max (map date merged)) as [hi|] eqn:E.
  - unfold last_days at 1. rewrite (last_days_max merged days' hi) by (lia || assumption).
    unfold last_days. rewrite E, filter_filter. apply filter_ext. intros r.
    destruct (date r) as [t|]; [|reflexivity]. unfold Ts.sub, Ts.ge, Ts.Timedelta_days.
    destruct (Z.geb_spec t (hi - days' * 86400000000000)),
      (Z.geb_spec t (hi - days * 86400000000000)); simpl; try reflexivity; lia.
  - replace (last_days merged days') with (@nil MergedRow).
    + symmetry. unfold last_days. rewrite E. apply filter_nil_of_false.
      intros r _. now destruct (date r).
    + symmetry. unfold last_days. rewrite E. apply filter_nil_of_false.
      intros r _. now destruct (date r).
Qed.

(** X9. The windows are nested, and a shorter window can be cut from a longer
    one: the rows of "Last 1 Month" are those of "Last 1 Month" taken within
    "Last 3 Months", and so on up to "Last 1 Year"; every window is part of
    the merged table. *)
Theorem windows_are_nested (merged : list MergedRow) :
  corr_data (corr_data merged "Last 3 Months") "Last 1 Month"
  = corr_data merged "Last 1 Month"
  /\ corr_data (corr_data merged "Last 6 Months") "Last 3 Months"
     = corr_data merged "Last 3 Months"
  /\ corr_data (corr_data merged "Last 1 Year") "Last 6 Months"
     = corr_data merged "Last 6 Months"
  /\ incl (corr_data merged "Last 1 Month") (corr_data merged "Last 3 Months")
  /\ incl (corr_data merged "Last 3 Months") (corr_data merged "Last 6 Months")
  /\ incl (corr_data merged "Last 6 Months") (corr_data merged "Last 1 Year")
  /\ incl (corr_data merged "Last 1 Year") merged.
Proof.
  change (corr_data merged "Last 1 Month") with (last_days merged 30).
  change (corr_data merged "Last 3 Months") with (last_days merged 90).
  change (corr_data merged "Last 6 Months") with (last_days merged 180).
  change (corr_data merged "Last 1 Year") with (last_days merged 365).
  change (corr_data (last_days merged 90) "Last 1 Month")
    with (last_days (last_days merged 90) 30).
  change (corr_data (last_days merged 180) "Last 3 Months")
    with (last_days (last_days merged 180) 90).
  change (corr_data (last_days merged 365) "Last 6 Months")
    with (last_days (last_days merged 365) 180).
  assert (N : forall d d', 0 <= d <= d' ->
                incl (last_days merged d) (last_days merged d')).
  { intros d d' H. rewrite <- (last_days_nested merged d d' H).
    intros r Hr. apply in_last_days in Hr. tauto. }
  repeat split; try (apply last_days_nested; lia); try (apply N; lia).
  intros r Hr. apply in_last_days in Hr. tauto.
Qed.

(** X10. Whatever the period chosen, the newest date of the correlation input
    is the newest date of the merged table: every window holds the newest
    rows, so a merged table with a dated row never gives an empty correlation
    input. Choosing the same period within a window changes nothing. *)
Theorem corr_data_keeps_newest (merged : list MergedRow)
  (correlation_period : string) (hi : Z) :
  series_max (map date merged) = Some hi ->
  series_max (map date (corr_data merged correlation_period)) = Some hi
  /\ corr_data merged correlation_period <> []
  /\ (forall r, In r merged -> date r = Some hi ->
                In r (corr_data merged correlation_period))
  /\ corr_data (corr_data merged correlation_period) correlation_period
     = corr_data merged correlation_period.
Proof.
  intros E.
  assert (L : forall days, 0 <= days ->
            series_max (map date (last_days merged days)) = Some hi
            /\ (forall r, In r merged -> date r = Some hi ->
                          In r (last_days merged days))
            /\ last_days (last_days merged days) days = last_days merged days).
  { intros days Hd. split; [now apply last_days_max|]. split.
    - intros r Hr Er. apply in_last_days. split; [assumption|].
      exists hi, hi. repeat split; try assumption. lia.
    - apply last_days_nested. lia. }
  assert (M : series_max (map date (corr_data merged correlation_period)) = Some hi
              /\ (forall r, In r merged -> date r = Some hi ->
                            In r (corr_data merged correlation_period))
              /\ corr_data (corr_data merged correlation_period) correlation_period
                 = corr_data merged correlation_period).
  { unfold corr_data.
    destruct (correlation_period =? "Last 1 Year")%string; [apply L; lia|].
    destruct (correlation_period =? "Last 6 Months")%string; [apply L; lia|].
    destruct (correlation_period =? "Last 3 Months")%string; [apply L; lia|].
    destruct (correlation_period =? "Last 1 Month")%string; [apply L; lia|].
    auto. }
  destruct M as (M1 & M2 & M3). repeat split; try assumption.
  intros N. rewrite N in M1. discriminate.
Qed.

Lemma corr_data_keeps_newest_witness :
  series_max (map date (corr_data merged_10_15_45 "Last 1 Month")) = day 45
  /\ corr_data merged_10_15_45 "Last 1 Month" <> [].
Proof.
  destruct (corr_data_keeps_newest merged_10_15_45 "Last 1 Month"
              (Ts.Timedelta_days 45) eq_refl) as (E & N & _).
  split; assumption.
Defined.

(** ** More on the coefficients *)

Module CorrMore.

Import Corr.



End CorrMore.


(** ** What is displayed *)

Lemma round_half_even_near (x : R) :
  (Rabs (IZR (Fmt.round_half_even x) - x) <= 1 / 2)%R.
Proof.
  unfold Fmt.round_half_even.
  destruct (base_Int_part x) as [H1 H2].
  set (f := Int_part x) in *.
  destruct (Rlt_dec (x - IZR f) (1 / 2)) as [L|L].
  - apply Rabs_le. lra.
  - assert (E : IZR (f + 1) = (IZR f + 1)%R) by (rewrite plus_IZR; reflexivity).
    destruct (Rgt_dec (x - IZR f) (1 / 2)) as [G|G].
    + rewrite E. apply Rabs_le. lra.
    + destruct (Z.even f); [|rewrite E]; apply Rabs_le; lra.
Qed.

Lemma digits_single (k : Z) :
  0 <= k <= 9 -> String.length (Fmt.digits k) = 1%nat.
Proof.
  intros H.
  assert (E : k = 0 \/ k = 1 \/ k = 2 \/ k = 3 \/ k = 4 \/ k = 5 \/ k = 6
              \/ k = 7 \/ k = 8 \/ k = 9) by lia.
  repeat (destruct E as [->|E]; [reflexivity|]). now subst k.
Qed.

(** X15. A coefficient between -1 and 1 is displayed with a minus sign when
    it is negative, one integer digit, a point and two decimals, four or five
    characters in all; the displayed hundredths [n] lie between 0 and 100 and
    are the nearest to the absolute value: [| n / 100 - |r| | <= 0.005]. *)
Theorem fmt2f_of_coefficient (r : R) :
  (-1 <= r <= 1)%R ->
  exists n,
    0 <= n <= 100
    /\ (Rabs (IZR n / 100 - Rabs r) <= 5 / 1000)%R
    /\ Fmt.fmt2f (Fin r)
       = (if Rlt_dec r 0 then "-" else "")
           ++ Fmt.digits (n / 100) ++ "."
           ++ Fmt.digits (n mod 100 / 10) ++ Fmt.digits (n mod 10)
    /\ String.length (Fmt.fmt2f (Fin r))
       = (if Rlt_dec r 0 then 5%nat else 4%nat).
Proof.
  intros Hr. set (n := Fmt.round_half_even (Rabs r * 100)).
  pose proof (round_half_even_near (Rabs r * 100)) as Near. fold n in Near.
  assert (Ha : (0 <= Rabs r <= 1)%R).
  { split; [apply Rabs_pos|]. apply Rabs_le. lra. }
  assert (Near' : (-1 / 2 <= IZR n - Rabs r * 100 <= 1 / 2)%R).
  { revert Near. unfold Rabs at 1. destruct (Rcase_abs _); lra. }
  assert (Hn : 0 <= n <= 100).
  { assert (X : (IZR (-1) < IZR n)%R) by (simpl; lra).
    assert (Y : (IZR n < IZR 101)%R) by (simpl; lra).
    apply lt_IZR in X, Y. lia. }
  exists n. split; [exact Hn|]. split.
  - apply Rabs_le. lra.
  - split; [reflexivity|]. unfold Fmt.fmt2f. fold n.
    assert (D1 : String.length (Fmt.digits (n / 100)) = 1%nat)
      by (apply digits_single; split; [apply Z.div_pos; lia|apply Z.div_le_upper_bound; lia]).
    assert (D2 : String.length (Fmt.digits (n mod 100 / 10)) = 1%nat).
    { apply digits_single. pose proof (Z.mod_pos_bound n 100 ltac:(lia)).
      split; [apply Z.div_pos; lia|].
      assert (n mod 100 / 10 < 10) by (apply Z.div_lt_upper_bound; lia). lia. }
    assert (D3 : String.length (Fmt.digits (n mod 10)) = 1%nat).
    { apply digits_single. pose proof (Z.mod_pos_bound n 10 ltac:(lia)). lia. }
    rewrite !length_append, D1, D2, D3.
    destruct (Rlt_dec r 0); reflexivity.
Qed.

Lemma fmt2f_of_coefficient_witness :
  String.length (Fmt.fmt2f (Fin (-1))) = 5%nat.
Proof.
  destruct (fmt2f_of_coefficient (-1)) as (n & _ & _ & _ & L); [lra|].
  destruct (Rlt_dec (-1) 0) as [_|N]; [exact L|lra].
Defined.

(** X16. On every page that is shown, that is whenever the merged table has
    a row, each insight quotes, between parentheses, the very text of its
    metric: the first card the first metric (sentiment against sentiment),
    the second card the second metric (price against price); and the titles
    of the three scatter charts quote the first, third and fourth metrics. *)
Theorem page_quotes_the_metrics (np : Corr.Arith) (crypto : list CryptoRow)
  (stock : list StockRow) (picked : option (list Z)) (correlation_period : string) :
  merged_df crypto stock <> [] ->
  exists fg price price_fg_crypto price_fg_stock before1 after1 before2 after2 view,
    page np crypto stock picked correlation_period
    = ([Metrics fg price price_fg_crypto price_fg_stock;
        InsightCard (before1 ++ "(" ++ fg ++ ")" ++ after1);
        InsightCard (before2 ++ "(" ++ price ++ ")" ++ after2);
        Chart "Crypto vs Stock Fear & Greed Indices" view;
        Chart ("Correlation between Stock and Crypto Sentiment (r = " ++ fg ++ ")")
              view;
        Chart "Bitcoin Price vs. Crypto Fear & Greed Index" view;
        Chart ("Correlation between Crypto Sentiment and Bitcoin Price (r = "
                 ++ price_fg_crypto ++ ")") view;
        Chart "S&P 500 Price vs. Stock Fear & Greed Index" view;
        Chart ("Correlation between Stock Sentiment and S&P 500 Price (r = "
                 ++ price_fg_stock ++ ")") view],
       None).
Proof.
  intros N.
  destruct (st_date_input_of_rows crypto stock picked N) as (a & b & _ & E).
  rewrite (page_of_date_range np crypto stock picked correlation_period _ E).
  unfold insights, metrics_of. cbn [List.app map].
  rewrite insight_fg_shape, insight_price_shape.
  do 9 eexists. reflexivity.
Qed.

Lemma page_quotes_the_metrics_witness :
  exists fg price before after rest,
    page no_rounding crypto_123 stock_234 None "All Time"
    = (Metrics fg price (fst rest) (snd rest)
         :: InsightCard (before ++ "(" ++ fg ++ ")" ++ after)
         :: tl (tl (fst (page no_rounding crypto_123 stock_234 None "All Time"))),
       None).
Proof.
  destruct (page_quotes_the_metrics no_rounding crypto_123 stock_234 None "All Time")
    as (fg & price & c3 & c4 & b1 & a1 & b2 & a2 & view & E).
  - discriminate.
  - exists fg, price, b1, a1, (c3, c4). rewrite E. reflexivity.
Defined.

(** X17. The strong price insight names the relationship by the sign of the
    coefficient: "potential market integration" when it is positive, "a
    potential hedging relationship" when it is negative, never both; the
    moderate insight names neither; the weak one speaks of "diversification
    benefits" instead. *)
Theorem price_insight_wording (r : R) :
  let t := insight_price (Fin r) in
  ((Rabs r > 7 / 10)%R -> (r > 0)%R ->
   contains "potential market integration" t = true
   /\ contains "hedging" t = false)
  /\ ((Rabs r > 7 / 10)%R -> (r < 0)%R ->
      contains "a potential hedging relationship" t = true
      /\ contains "integration" t = false)
  /\ ((Rabs r <= 7 / 10)%R ->
      contains "integration" t = false /\ contains "hedging" t = false)
  /\ ((Rabs r <= 3 / 10)%R <-> contains "diversification benefits" t = true).
Proof.
  intros t. subst t. rewrite insight_price_shape.
  rewrite (contains_around_number "potential market integration" _ _ "p")
    by reflexivity.
  rewrite (contains_around_number "a potential hedging relationship" _ _ "p")
    by reflexivity.
  rewrite (contains_around_number "hedging" _ _ "h") by reflexivity.
  rewrite (contains_around_number "integration" _ _ "i") by reflexivity.
  rewrite (contains_around_number "diversification benefits" _ _ "d") by reflexivity.
  repeat split; insight_cases r; intros;
    try reflexivity; try lra; try discriminate.
Qed.

Lemma price_insight_wording_witness :
  contains "a potential hedging relationship" (insight_price (Fin (-1))) = true.
Proof.
  destruct (price_insight_wording (-1)) as (_ & H & _).
  apply H; [rewrite Rabs_left by lra|]; lra.
Defined.

(** ** The zones of the Fear & Greed chart *)

Lemma ts_le_refl_some (t : Z) : Ts.le (Some t) (Some t) = true.
Proof. simpl. apply Z.leb_refl. Qed.

(** X18. In the Fear & Greed chart the three dashed lines are horizontal, at
    25, 50 and 75, and run from the first to the last date of the view, so
    that every plotted date lies between their ends; the four zone labels
    stand at the first date, half-way between 0, 25, 50, 75 and 100; and the
    two curves have one point per row of the view. *)
Theorem fig_zones (merged_filtered : list MergedRow) :
  let f := fig merged_filtered in
  map y0 (shapes f) = [25; 50; 75]%R
  /\ (forall s, In s (shapes f) ->
        y1 s = y0 s
        /\ forall tr t, In tr (traces f) -> In (Some t) (trace_x tr) ->
             Ts.le (x0 s) (Some t) = true /\ Ts.le (Some t) (x1 s) = true)
  /\ map ann_y (annotations f)
     = [(0 + 25) / 2; (25 + 50) / 2; (50 + 75) / 2; (75 + 100) / 2]%R
  /\ (forall a s, In a (annotations f) -> In s (shapes f) -> ann_x a = x0 s)
  /\ (forall tr, In tr (traces f) ->
        List.length (trace_x tr) = List.length merged_filtered
        /\ List.length (trace_y tr) = List.length merged_filtered).
Proof.
  intros f. subst f. unfold fig. cbn [shapes traces annotations].
  set (dates := map date merged_filtered).
  assert (Span : forall t, In (Some t) dates ->
            Ts.le (series_min dates) (Some t) = true
            /\ Ts.le (Some t) (series_max dates) = true).
  { intros t Ht.
    destruct (series_min_some dates t Ht) as [lo Elo].
    destruct (series_max_some dates t Ht) as [hi Ehi]. rewrite Elo, Ehi.
    apply series_min_spec in Elo as [_ Hlo]. apply series_max_spec in Ehi as [_ Hhi].
    specialize (Hlo t Ht). specialize (Hhi t Ht). simpl. split; lia. }
  split; [reflexivity|]. split; [|split; [|split]].
  - intros s [<-|[<-|[<-|[]]]]; (split; [reflexivity|]);
      intros tr t [<-|[<-|[]]] Ht; apply Span; exact Ht.
  - simpl. repeat f_equal; lra.
  - intros a s [<-|[<-|[<-|[<-|[]]]]] [<-|[<-|[<-|[]]]]; reflexivity.
  - intros tr [<-|[<-|[]]]; simpl; unfold dates; rewrite !length_map; auto.
Qed.

(** On the merged sample tables the lines run from day 2 to day 3. *)
Lemma fig_zones_witness :
  Ts.le (x0 (mkShape (day 2) 25 (day 3) 25 "Red")) (day 3) = true.
Proof.
  destruct (fig_zones (merged_df crypto_123 stock_234)) as (_ & H & _).
  assert (Hin : In (mkShape (day 2) 25 (day 3) 25 "Red")
                   (shapes (fig (merged_df crypto_123 stock_234))))
    by (left; reflexivity).
  destruct (H _ Hin) as [_ Span].
  destruct (Span (mkTrace "Crypto Fear & Greed"
                    (map date (merged_df crypto_123 stock_234))
                    (map fear_greed_index_crypto (merged_df crypto_123 stock_234)))
                 (Ts.Timedelta_days 3)) as [L _].
  - left. reflexivity.
  - simpl. right. left. reflexivity.
  - exact L.
Defined.

(** ** The browser driver *)

Lemma quit_last (sessions : list Selenium.Session) (s : Selenium.Session) :
  Selenium.quit (List.length sessions) (sessions ++ [s])%list
  = (sessions ++ [Selenium.mkSession (Selenium.arguments s) false])%list.
Proof.
  induction sessions as [|x sessions IH]; simpl; [reflexivity|]. now rewrite IH.
Qed.

(** X19. [quit_driver] on a driver object on which [setup_driver] never ran
    raises [AttributeError] and touches no session. After [setup_driver],
    the object holds the session just started, which runs with the four fixed
    arguments, preceded by [--headless] exactly when the object was made
    headless; its wait has a timeout of 10 seconds on that session; and
    [quit_driver] stops that session and no other. *)
Theorem driver_lifecycle (headless : bool) (sessions : list Selenium.Session) :
  let self := Selenium.init headless in
  let started := Selenium.mkSession (Selenium.chrome_options self) true in
  Selenium.quit_driver self sessions = inl (Selenium.AttributeError "driver")
  /\ Selenium.setup_driver self sessions
     = ({| Selenium.headless := headless;
           Selenium.driver := Some (List.length sessions);
           Selenium.wait := Some (List.length sessions, 10);
           Selenium.actions := Some (List.length sessions) |},
        (sessions ++ [started])%list)
  /\ nth_error (snd (Selenium.setup_driver self sessions)) (List.length sessions)
     = Some started
  /\ (In "--headless" (Selenium.arguments started) <-> headless = true)
  /\ (exists first, Selenium.arguments started
                    = (first ++ ["--no-sandbox"; "--disable-dev-shm-usage";
                                 "--window-size=1920,1080";
                                 "--user-agent=Mozilla/5.0 (Windows NT 10.0; Win64; x64) AppleWebKit/537.36 (KHTML, like Gecko) Chrome/91.0.4472.124 Safari/537.36"])%list
                      /\ first = if headless then ["--headless"] else [])
  /\ Selenium.quit_driver (fst (Selenium.setup_driver self sessions))
                          (snd (Selenium.setup_driver self sessions))
     = inr (sessions
            ++ [Selenium.mkSession (Selenium.chrome_options self) false])%list.
Proof.
  intros self started. split; [reflexivity|]. split; [reflexivity|]. split.
  - cbn [snd Selenium.setup_driver].
    rewrite nth_error_app2 by lia. now rewrite Nat.sub_diag.
  - split; [|split].
    + destruct headless; simpl; split; intros H.
      * reflexivity.
      * now left.
      * repeat (destruct H as [H|H]; [discriminate H|]). contradiction.
      * discriminate H.
    + eexists. split; reflexivity.
    + cbn [fst snd Selenium.setup_driver Selenium.quit_driver Selenium.driver].
      f_equal. apply quit_last.
Qed.

(** ** The date input of an empty table *)

(** X21. The date input receives proper days exactly when the merged table
    has rows: for the merged table of two tables without a common date, its
    two default values and its two bounds are all [NaT]; otherwise all four
    are days. *)
Theorem date_input_of_merged_df (crypto : list CryptoRow) (stock : list StockRow) :
  let args := date_input_args (merged_df crypto stock) in
  (merged_df crypto stock = [] <->
   args = {| value := [None; None]; min_value := None; max_value := None |})
  /\ (merged_df crypto stock <> [] <->
      exists start_date first last,
        args = {| value := [Some start_date; Some last];
                  min_value := Some first;
                  max_value := Some last |}).
Proof.
  intros args. subst args.
  destruct (merged_df crypto stock) as [|m l] eqn:E.
  - split.
    + split; reflexivity.
    + split; [intros H; now contradiction H|].
      intros (s & f & la & H). discriminate H.
  - assert (Hd : exists t, date m = Some t).
    { assert (Hm : In m (merged_df crypto stock)) by (rewrite E; now left).
      apply in_merged_df in Hm as (c & s & t & _ & _ & Ec & _ & ->). now exists t. }
    destruct Hd as [t Et].
    assert (Hin : In (Some t) (map date (m :: l))) by (left; exact Et).
    destruct (series_min_some _ _ Hin) as [lo Elo].
    destruct (series_max_some _ _ Hin) as [hi Ehi].
    destruct (date_input_args_value (m :: l) lo hi Elo Ehi) as (A & _).
    split.
    + split; [discriminate|]. intros H. rewrite A in H. discriminate H.
    + split; [|discriminate]. intros _. rewrite A. eauto.
Qed.
